(** * nrtest.results.csv: comparison of numeric CSV results

    A shallow embedding of [src/nrtest/results/csv.py] (class
    [NumericCsvResult], methods [_identify_format] and [compare]) together
    with the properties of its natural-language specification.

    Layout:
    - [Py]   : the part of the Python runtime the module relies on
               (exceptions, binary64 floats, [str] methods, [float(...)],
               [max], true division);
    - [Csv]  : the interface of the standard [csv] module ([reader],
               [Sniffer]) and of the file system, taken as an environment;
    - the embedding of [_identify_format] and [compare];
    - the theorems, one block per property of the specification.

    Modelling choices:
    - a [str] is a byte string and a file is its content; lines end at the
      newline character, for [readline] and for iteration alike;
    - floats are the binary64 numbers of [SpecFloat], so every statement
      about a deviation is about the rounded value Python computes;
    - [float(s)] follows the grammar of Python 2.7 to 3.5 (later versions
      also accept underscores between digits);
    - [csv.reader] and [csv.Sniffer] are not part of the repository: the
      embedding is parametric in them, and [Csv.plain_reader] instantiates
      the reader for input without quote characters. *)

From Stdlib Require Import ZArith List String Ascii Bool Lia.
From Stdlib Require Import Floats.SpecFloat.
Import ListNotations.

Local Open Scope string_scope.
Local Open Scope Z_scope.

(* ================================================================== *)
(** ** The Python runtime *)
(* ================================================================== *)

Module Py.

(** Exceptions that can cross the boundary of the embedded methods.
    [ValueError] (from [float(...)]) and [csv.Error] never do: the source
    catches them where they arise, so they are modelled at those places
    ([parse_float] returns [None]; the reader yields [CsvError]). *)
Inductive exn : Type :=
| IOError
| StopIteration
| IndexError
| ZeroDivisionError
| OverflowError.

(** The result of running a piece of Python code. *)
Inductive outcome (A : Type) : Type :=
| Return (a : A)
| Raise (e : exn).
Arguments Return {A} a.
Arguments Raise {A} e.

Definition bind {A B} (m : outcome A) (k : A -> outcome B) : outcome B :=
  match m with
  | Return a => k a
  | Raise e => Raise e
  end.

(** *** binary64 floats

    A Python [float] is an IEEE 754 binary64 number: [prec = 53],
    [emax = 1024], round to nearest, ties to even. *)
Definition prec : Z := 53.
Definition emax : Z := 1024.

Definition float : Type := spec_float.

Definition fzero : float := S754_zero false.
Definition fnan : float := S754_nan.
Definition finf (neg : bool) : float := S754_infinity neg.

Definition fadd (x y : float) : float := SFadd prec emax x y.
Definition fsub (x y : float) : float := SFsub prec emax x y.
Definition fdiv (x y : float) : float := SFdiv prec emax x y.
Definition fabs (x : float) : float := SFabs x.
Definition feqb (x y : float) : bool := SFeqb x y.
Definition fltb (x y : float) : bool := SFltb x y.
Definition fleb (x y : float) : bool := SFleb x y.
(** [x > y] *)
Definition fgtb (x y : float) : bool := SFltb y x.

Definition is_nan (x : float) : bool :=
  match x with S754_nan => true | _ => false end.

Definition is_finite (x : float) : bool :=
  match x with S754_zero _ | S754_finite _ _ _ => true | _ => false end.

(** The floats of sign [s]: every float but NaN has one. *)
Inductive signed (s : bool) : float -> Prop :=
| signed_zero : signed s (S754_zero s)
| signed_inf : signed s (S754_infinity s)
| signed_fin : forall m e, signed s (S754_finite s m e).

(** The exact integer [n] rounded to binary64; an infinite result stands
    for an overflow. *)
Definition round_Z (n : Z) : float := binary_normalize prec emax n 0 false.

(** Conversion of an [int] to [float], as done for the right operand of
    [float / int]: correctly rounded, [OverflowError] past the range. *)
Definition float_of_int (n : Z) : outcome float :=
  match round_Z n with
  | S754_infinity _ => Raise OverflowError
  | x => Return x
  end.

(** [x / y] on floats: [ZeroDivisionError] on a zero divisor. *)
Definition truediv (x y : float) : outcome float :=
  if feqb y fzero then Raise ZeroDivisionError else Return (fdiv x y).

(** [max(a, b)]: the first argument is kept unless the second compares
    strictly greater. *)
Definition max (a b : float) : float := if fgtb b a then b else a.

(** *** [str] methods (byte strings) *)

Definition isspace (c : ascii) : bool :=
  match nat_of_ascii c with
  | 9%nat | 10%nat | 11%nat | 12%nat | 13%nat | 32%nat => true
  | _ => false
  end.

Definition is_empty (s : string) : bool :=
  match s with EmptyString => true | _ => false end.

Fixpoint lstrip (s : string) : string :=
  match s with
  | EmptyString => EmptyString
  | String c r => if isspace c then lstrip r else s
  end.

Fixpoint rstrip (s : string) : string :=
  match s with
  | EmptyString => EmptyString
  | String c r =>
      let r' := rstrip r in
      if isspace c && is_empty r' then EmptyString else String c r'
  end.

(** [s.strip()] *)
Definition strip (s : string) : string := rstrip (lstrip s).

Fixpoint split_from (s tok : string) : list string :=
  match s with
  | EmptyString => if is_empty tok then [] else [tok]
  | String c r =>
      if isspace c
      then (if is_empty tok then split_from r EmptyString
            else tok :: split_from r EmptyString)
      else split_from r (tok ++ String c EmptyString)
  end.

(** [s.split()]: the maximal runs of non-whitespace characters. *)
Definition split (s : string) : list string := split_from s EmptyString.

(** [s.startswith(c)] for a one-character prefix. *)
Definition startswith (s : string) (c : ascii) : bool :=
  match s with
  | String c' _ => Ascii.eqb c' c
  | EmptyString => false
  end.

(** *** [float(s)] on a string *)

Definition digit_of (c : ascii) : option Z :=
  let n := nat_of_ascii c in
  if ((48 <=? n) && (n <=? 57))%nat then Some (Z.of_nat n - 48) else None.

Definition lower (c : ascii) : ascii :=
  let n := nat_of_ascii c in
  if ((65 <=? n) && (n <=? 90))%nat then ascii_of_nat (n + 32) else c.

Fixpoint lowercase (s : string) : string :=
  match s with
  | EmptyString => EmptyString
  | String c r => String (lower c) (lowercase r)
  end.

(** The longest prefix of decimal digits, most significant first, and
    what follows it. *)
Fixpoint span_digits (s : string) : list Z * string :=
  match s with
  | EmptyString => ([], EmptyString)
  | String c r =>
      match digit_of c with
      | Some d => let '(ds, rest) := span_digits r in (d :: ds, rest)
      | None => ([], s)
      end
  end.

Definition digits_value (ds : list Z) : Z :=
  fold_left (fun acc d => 10 * acc + d) ds 0.

(** An optional sign: [true] for a minus. *)
Definition take_sign (s : string) : bool * string :=
  match s with
  | String "-" r => (true, r)
  | String "+" r => (false, r)
  | _ => (false, s)
  end.

(** A decimal literal [digits [. digits] [(e|E) [sign] digits]] with at
    least one mantissa digit, read as [m * 10 ^ e]. *)
Definition parse_decimal (s : string) : option (Z * Z) :=
  let '(ip, r1) := span_digits s in
  let '(fp, r2) :=
    match r1 with
    | String "." r => span_digits r
    | _ => ([], r1)
    end in
  match (ip ++ fp)%list with
  | [] => None
  | ds =>
      let m := digits_value ds in
      let shift := Z.of_nat (List.length fp) in
      match r2 with
      | EmptyString => Some (m, - shift)
      | String c r3 =>
          if Ascii.eqb (lower c) "e" then
            let '(eneg, r4) := take_sign r3 in
            match span_digits r4 with
            | ((_ :: _) as es, EmptyString) =>
                let e := digits_value es in
                Some (m, (if eneg then - e else e) - shift)
            | _ => None
            end
          else None
      end
  end.

(** The binary64 number nearest to [(-1)^neg * m * 10 ^ e], for
    [0 <= m]. *)
Definition decimal_to_float (neg : bool) (m e : Z) : float :=
  match m with
  | Zpos p =>
      if 0 <=? e
      then round_Z ((if neg then - m else m) * 10 ^ e)
      else fdiv (S754_finite neg p 0)
                (S754_finite false (Z.to_pos (10 ^ (- e))) 0)
  | _ => S754_zero neg
  end.

(** [float(s)]: [None] stands for [ValueError]. *)
Definition parse_float (s : string) : option float :=
  let '(neg, body) := take_sign (strip s) in
  let low := lowercase body in
  if (String.eqb low "inf" || String.eqb low "infinity")%bool
  then Some (finf neg)
  else if String.eqb low "nan" then Some fnan
  else match parse_decimal body with
       | Some (m, e) => Some (decimal_to_float neg m e)
       | None => None
       end.

End Py.

Notation "x <- m ;; k" := (Py.bind m (fun x => k))
  (at level 61, m at next level, right associativity).

(* ================================================================== *)
(** ** The [csv] module and the file system *)
(* ================================================================== *)

Module Csv.

(** The attributes of a dialect class returned by [Sniffer().sniff]. *)
Record SniffedDialect : Type := {
  delimiter : ascii;
  quotechar : ascii;
  doublequote : bool;
  skipinitialspace : bool
}.

(** What [self.dialect] holds: the name ['excel'] or a sniffed class. *)
Inductive Dialect : Type :=
| excel
| Sniffed (d : SniffedDialect).

(** One pull on a reader that is not exhausted: a row of cells, or
    [csv.Error].  An exhausted reader raises [StopIteration]. *)
Inductive Pulled : Type :=
| Row (cells : list string)
| CsvError.

(** The environment of the module: the standard library and the files.
    - [fs path] is the content of the file at [path], [None] when it cannot
      be opened;
    - [sniff sample delimiters] and [has_header sample] are the methods of
      [csv.Sniffer], [None] standing for [csv.Error];
    - [reader lines dialect] is everything [csv.reader] yields on the
      remaining lines of an open file, in order. *)
Record Env : Type := {
  fs : string -> option string;
  sniff : string -> string -> option SniffedDialect;
  has_header : string -> option bool;
  reader : list string -> Dialect -> list Pulled
}.

(** The lines of a file, each with its terminating newline (the last one
    possibly without), as [readline] and iteration produce them. *)
Fixpoint readlines (s : string) : list string :=
  match s with
  | EmptyString => []
  | String c r =>
      if Ascii.eqb c "010" then String c EmptyString :: readlines r
      else match readlines r with
           | [] => [String c EmptyString]
           | l :: ls => String c l :: ls
           end
  end.

(** [open(path)]: the open file as the list of lines still to be read. *)
Definition open (E : Env) (path : string) : Py.outcome (list string) :=
  match fs E path with
  | Some content => Py.Return (readlines content)
  | None => Py.Raise Py.IOError
  end.

(** [next(f)] repeated [n] times on an open file. *)
Fixpoint skip_lines (n : nat) (f : list string) : Py.outcome (list string) :=
  match n with
  | O => Py.Return f
  | S n' =>
      match f with
      | [] => Py.Raise Py.StopIteration
      | _ :: f' => skip_lines n' f'
      end
  end.

(** An instance of [reader] for input without quote characters: every
    line, stripped of its line terminator, is cut at the delimiter; an
    empty line is the empty row. *)
Definition is_eol (c : ascii) : bool :=
  (Ascii.eqb c "010" || Ascii.eqb c "013")%bool.

Fixpoint cut_fields (delim : ascii) (s field : string) : list string :=
  match s with
  | EmptyString => [field]
  | String c r =>
      if is_eol c then [field]
      else if Ascii.eqb c delim then field :: cut_fields delim r EmptyString
      else cut_fields delim r (field ++ String c EmptyString)
  end.

Definition plain_row (delim : ascii) (line : string) : Pulled :=
  match line with
  | EmptyString => Row []
  | String c _ => if is_eol c then Row [] else Row (cut_fields delim line EmptyString)
  end.

Definition delimiter_of (d : Dialect) : ascii :=
  match d with
  | excel => ","
  | Sniffed sd => delimiter sd
  end.

Definition plain_reader (lines : list string) (d : Dialect) : list Pulled :=
  map (plain_row (delimiter_of d)) lines.

End Csv.

Import Csv.

(* ================================================================== *)
(** ** [NumericCsvResult] *)
(* ================================================================== *)

(** The attributes of a [NumericCsvResult] object. *)
Record NumericCsvResult : Type := {
  fpath : string;
  dialect : Dialect;
  n_header_lines : nat
}.

(** *** [_identify_format] *)

(** The loop over the initial rows that begin with a hash.  [lines] is what
    the file still holds at [pos]; the result is the updated
    [n_header_lines] and the lines from the final [pos] on. *)
Fixpoint hash_rows (lines : list string) (n : nat) : nat * list string :=
  match lines with
  | [] => (n, [])
  | line :: rest =>
      if Py.startswith line "#" then hash_rows rest (S n) else (n, lines)
  end.

(** [csvfile.seek(pos); csvfile.read(1024)] *)
Definition read_sample (lines : list string) : string :=
  substring 0 1024 (String.concat EmptyString lines).

(** The delimiters handed to the sniffer: [',:;\t ']. *)
Definition delimiters : string :=
  String "," (String ":" (String ";" (String "009" (String " " EmptyString)))).

Definition _identify_format (E : Env) (path : string)
  : Py.outcome NumericCsvResult :=
  csvfile <- open E path ;;
  let '(n, pos) := hash_rows csvfile 0 in
  let sample := read_sample pos in
  if (List.length (Py.split sample) <=? 1)%nat then
    Py.Return {| fpath := path; dialect := excel; n_header_lines := n |}
  else
    match sniff E sample delimiters with
    | Some d =>
        match has_header E sample with
        | Some true =>
            Py.Return {| fpath := path; dialect := Sniffed d;
                         n_header_lines := S n |}
        | Some false =>
            Py.Return {| fpath := path; dialect := Sniffed d;
                         n_header_lines := n |}
        | None =>
            Py.Return {| fpath := path; dialect := excel;
                         n_header_lines := n |}
        end
    | None =>
        Py.Return {| fpath := path; dialect := excel; n_header_lines := n |}
    end.

(** [NumericCsvResult(fpath)] *)
Definition __init__ (E : Env) (path : string) : Py.outcome NumericCsvResult :=
  _identify_format E path.

(** *** [compare] *)

(** [999.9] as a binary64 number. *)
Definition f999_9 : Py.float :=
  Eval vm_compute in Py.decimal_to_float false 9999 (-1).

Definition FAILURE : Py.float * Py.float := (f999_9, f999_9).

(** The local variables the loops update. *)
Record Acc : Type := {
  max_delta : Py.float;
  avg_delta : Py.float;
  n_cells : Z
}.

Definition acc0 : Acc :=
  {| max_delta := Py.fzero; avg_delta := Py.fzero; n_cells := 0 |}.

(** Control at the end of a loop body: go on with the updated variables,
    [return] a value from [compare], or propagate an exception. *)
Inductive Flow : Type :=
| Next (a : Acc)
| Ret (r : Py.float * Py.float)
| Exc (e : Py.exn).

(** A cell after [try: float(...) except ValueError: str(...)]. *)
Inductive Cell : Type :=
| CFloat (x : Py.float)
| CStr (s : string).

Definition parse_cell (s : string) : Cell :=
  match Py.parse_float s with
  | Some x => CFloat x
  | None => CStr s
  end.

(** The relative deviation of two floats (lines 126-131). *)
Definition delta (cell cell_ref : Py.float) : Py.outcome Py.float :=
  if (Py.feqb cell Py.fzero && Py.feqb cell_ref Py.fzero)%bool then
    Py.Return Py.fzero
  else if Py.feqb cell_ref Py.fzero then
    Py.Return f999_9
  else
    q <- Py.truediv (Py.fsub cell cell_ref) cell_ref ;;
    Py.Return (Py.fabs q).

(** The accumulator update of lines 133-135. *)
Definition accumulate (a : Acc) (d : Py.float) : Acc :=
  {| max_delta := Py.max d (max_delta a);
     avg_delta := Py.fadd (avg_delta a) d;
     n_cells := n_cells a + 1 |}.

(** The body of [for i in range(len(row))] on the two cells at [i]. *)
Definition compare_cell (a : Acc) (s s_ref : string) : Flow :=
  match parse_cell s, parse_cell s_ref with
  | CFloat cell, CFloat cell_ref =>
      match delta cell cell_ref with
      | Py.Return d => Next (accumulate a d)
      | Py.Raise e => Exc e
      end
  | CStr cell, CStr cell_ref =>
      if String.eqb (Py.strip cell) (Py.strip cell_ref) then Next a
      else Ret FAILURE
  | _, _ => Ret FAILURE
  end.

(** [for i in range(len(row))], over the indices still to be visited;
    [row[i]] raises [IndexError] out of range. *)
Fixpoint for_cells (row row_ref : list string) (idx : list nat) (a : Acc)
  : Flow :=
  match idx with
  | [] => Next a
  | i :: idx' =>
      match nth_error row i, nth_error row_ref i with
      | Some s, Some s_ref =>
          match compare_cell a s s_ref with
          | Next a' => for_cells row row_ref idx' a'
          | stop => stop
          end
      | _, _ => Exc Py.IndexError
      end
  end.

(** [while n_eofs == 0]: one iteration pulls a row from each reader.
    [rdr] and [rdr_ref] are what the two readers still yield. *)
Fixpoint walk (rdr rdr_ref : list Pulled) (a : Acc) : Flow :=
  match rdr with
  | CsvError :: _ => Ret FAILURE
  | [] =>
      (* StopIteration: n_eofs = 1, then the reference reader is pulled *)
      match rdr_ref with
      | CsvError :: _ => Ret FAILURE
      | [] => Next a                      (* n_eofs = 2: break *)
      | Row _ :: _ => Ret FAILURE         (* n_eofs = 1 *)
      end
  | Row row :: rdr' =>
      match rdr_ref with
      | CsvError :: _ => Ret FAILURE
      | [] => Ret FAILURE                 (* n_eofs = 1 *)
      | Row row_ref :: rdr_ref' =>
          if negb (List.length row =? List.length row_ref)%nat then Ret FAILURE
          else
            match for_cells row row_ref (seq 0 (List.length row)) a with
            | Next a' => walk rdr' rdr_ref' a'
            | stop => stop
            end
      end
  end.

(** Lines 146-148. *)
Definition finish (a : Acc) : Py.outcome (Py.float * Py.float) :=
  if 0 <? n_cells a then
    n <- Py.float_of_int (n_cells a) ;;
    avg <- Py.truediv (avg_delta a) n ;;
    Py.Return (max_delta a, avg)
  else Py.Return (max_delta a, avg_delta a).

(** [compare] from the point where both readers exist. *)
Definition compare_rows (rdr rdr_ref : list Pulled)
  : Py.outcome (Py.float * Py.float) :=
  match walk rdr rdr_ref acc0 with
  | Next a => finish a
  | Ret r => Py.Return r
  | Exc e => Py.Raise e
  end.

Definition compare (E : Env) (self ref : NumericCsvResult)
  : Py.outcome (Py.float * Py.float) :=
  f <- open E (fpath self) ;;
  f_ref <- open E (fpath ref) ;;
  f <- skip_lines (n_header_lines self) f ;;
  f_ref <- skip_lines (n_header_lines ref) f_ref ;;
  compare_rows (reader E f (dialect self)) (reader E f_ref (dialect ref)).

(* ================================================================== *)
(** ** The vocabulary of the specification *)
(* ================================================================== *)

Module Spec.

Definition is_zero (x : Py.float) : bool := Py.feqb x Py.fzero.

(** [0 <= x] on floats; false on NaN. *)
Definition nonneg (x : Py.float) : bool := Py.fleb Py.fzero x.

(** The relative deviation as the specification words it: [0] when both
    values are zero, [999.9] when only the reference is, and
    [|candidate - reference| / |reference|] otherwise. *)
Definition deviation (candidate reference : Py.float) : Py.float :=
  if (is_zero candidate && is_zero reference)%bool then Py.fzero
  else if is_zero reference then f999_9
  else Py.fdiv (Py.fabs (Py.fsub candidate reference)) (Py.fabs reference).

(** A cell is numeric when [float] accepts it. *)
Definition numeric (s : string) : bool :=
  match Py.parse_float s with Some _ => true | None => false end.

(** A cell is a finite number: it is numeric and neither [inf] nor
    [nan]. *)
Definition finite_numeric (s : string) : bool :=
  match Py.parse_float s with Some x => Py.is_finite x | None => false end.

(** The deviations of the numeric-numeric pairs of one row pair. *)
Fixpoint cell_deviations (cells : list (string * string))
  : list Py.float :=
  match cells with
  | [] => []
  | (s, s_ref) :: rest =>
      match Py.parse_float s, Py.parse_float s_ref with
      | Some c, Some r => deviation c r :: cell_deviations rest
      | _, _ => cell_deviations rest
      end
  end.

(** All per-cell numeric deviations of a comparison, in the order of the
    walk. *)
Fixpoint deviations (rdr rdr_ref : list Pulled) : list Py.float :=
  match rdr, rdr_ref with
  | Row row :: rdr', Row row_ref :: rdr_ref' =>
      (cell_deviations (combine row row_ref) ++ deviations rdr' rdr_ref')%list
  | _, _ => []
  end.

(** [m] is the maximum of [ds], [0.0] standing for the maximum of no
    deviation at all. *)
Definition is_maximum (m : Py.float) (ds : list Py.float) : Prop :=
  ((ds = [] /\ m = Py.fzero) \/ In m ds) /\
  (forall d, In d ds -> Py.fleb d m = true).

Definition running_sum (ds : list Py.float) : Py.float :=
  fold_left Py.fadd ds Py.fzero.

(** The running sum over the count, [0] without any comparison. *)
Definition mean (ds : list Py.float) : Py.float :=
  match ds with
  | [] => Py.fzero
  | _ => Py.fdiv (running_sum ds) (Py.round_Z (Z.of_nat (List.length ds)))
  end.

Definition no_nan (ds : list Py.float) : bool :=
  forallb (fun d => negb (Py.is_nan d)) ds.

(** Counts that a float holds exactly. *)
Definition exact_count (ds : list Py.float) : bool :=
  Z.of_nat (List.length ds) <? 2 ^ 53.

(** Every pull is a row and every cell satisfies [p]. *)
Definition all_cells (p : string -> bool) (rdr : list Pulled) : bool :=
  forallb (fun r => match r with
                    | Row cells => forallb p cells
                    | CsvError => false
                    end) rdr.

(** What the reader yields for a sniffed file once its header lines are
    skipped. *)
Definition data_rows (E : Env) (self : NumericCsvResult)
  : Py.outcome (list Pulled) :=
  f <- open E (fpath self) ;;
  f <- skip_lines (n_header_lines self) f ;;
  Py.Return (reader E f (dialect self)).

(** The stated properties that the code does not have as stated; each is
    refuted at a concrete input and proved in an amended form. *)

(** C2 as stated. *)
Definition aggregates_as_stated (rdr rdr_ref : list Pulled) : Prop :=
  forall a, walk rdr rdr_ref acc0 = Next a ->
    exists mx, compare_rows rdr rdr_ref
               = Py.Return (mx, mean (deviations rdr rdr_ref)) /\
               is_maximum mx (deviations rdr rdr_ref).

(** C6 as stated. *)
Definition self_compare_as_stated (E : Env) (path : string) : Prop :=
  forall self rdr,
    _identify_format E path = Py.Return self ->
    data_rows E self = Py.Return rdr ->
    all_cells numeric rdr = true ->
    compare E self self = Py.Return (Py.fzero, Py.fzero).

(** C9 as stated. *)
Definition sentinel_distinct_as_stated (rdr rdr_ref : list Pulled) : Prop :=
  forall a, walk rdr rdr_ref acc0 = Next a ->
    compare_rows rdr rdr_ref <> Py.Return FAILURE.

(** C10 as stated. *)
Definition mean_below_max_as_stated (rdr rdr_ref : list Pulled) : Prop :=
  forall a mx avg,
    walk rdr rdr_ref acc0 = Next a ->
    compare_rows rdr rdr_ref = Py.Return (mx, avg) ->
    Py.fleb Py.fzero avg = true /\ Py.fleb avg mx = true.

End Spec.

(** The cell loop as a walk over the paired cells; [for_cells] on rows of
    equal length computes it (lemma [for_cells_zip]). *)
Fixpoint zip_cells (cells : list (string * string)) (a : Acc) : Flow :=
  match cells with
  | [] => Next a
  | (s, s_ref) :: rest =>
      match compare_cell a s s_ref with
      | Next a' => zip_cells rest a'
      | stop => stop
      end
  end.

(** An environment to run the module in: the files are those of [files],
    the reader is [plain_reader], and the sniffer recognises the comma
    only. *)
Module Demo.

Fixpoint lookup (files : list (string * string)) (path : string)
  : option string :=
  match files with
  | [] => None
  | (p, content) :: rest =>
      if String.eqb p path then Some content else lookup rest path
  end.

Fixpoint has_char (c : ascii) (s : string) : bool :=
  match s with
  | EmptyString => false
  | String c' r => (Ascii.eqb c c' || has_char c r)%bool
  end.

Definition comma : SniffedDialect :=
  {| delimiter := ","; quotechar := "034"; doublequote := false;
     skipinitialspace := false |}.

Definition env (files : list (string * string)) : Env :=
  {| fs := lookup files;
     sniff := fun sample _ => if has_char "," sample then Some comma else None;
     has_header := fun _ => Some false;
     reader := plain_reader |}.

Definition rows (l : list (list string)) : list Pulled := map Row l.

(** The float a literal denotes. *)
Definition lit (s : string) : Py.float :=
  match Py.parse_float s with Some x => x | None => Py.fnan end.

(** A line of text with its newline. *)
Definition line (s : string) : string := s ++ String "010" EmptyString.

End Demo.

(* ================================================================== *)
(** ** The shape of two files *)
(* ================================================================== *)

Module Shape.

(** Two cells at the same place agree in kind: two numbers, or two texts
    that are equal once stripped. *)
Definition cell_compatible (s s_ref : string) : bool :=
  match Py.parse_float s, Py.parse_float s_ref with
  | Some _, Some _ => true
  | None, None => String.eqb (Py.strip s) (Py.strip s_ref)
  | _, _ => false
  end.

(** Two rows have as many cells, pairwise compatible. *)
Definition row_compatible (row row_ref : list string) : bool :=
  ((List.length row =? List.length row_ref)%nat &&
   forallb (fun p => cell_compatible (fst p) (snd p)) (combine row row_ref))%bool.

(** Two readers yield as many rows, pairwise compatible, and no error. *)
Fixpoint compatible (rdr rdr_ref : list Pulled) : bool :=
  match rdr, rdr_ref with
  | [], [] => true
  | Row row :: rdr', Row row_ref :: rdr_ref' =>
      (row_compatible row row_ref && compatible rdr' rdr_ref')%bool
  | _, _ => false
  end.

(** A cell that is a finite number or a text. *)
Definition finite_or_text (s : string) : bool :=
  match Py.parse_float s with Some x => Py.is_finite x | None => true end.

(** Two cells at the same place hold the same value: the same finite
    number, however it is spelled, or the same text once stripped. *)
Definition cell_same (s s_ref : string) : bool :=
  match Py.parse_float s, Py.parse_float s_ref with
  | Some x, Some y => (Py.is_finite x && Py.feqb x y)%bool
  | None, None => String.eqb (Py.strip s) (Py.strip s_ref)
  | _, _ => false
  end.

Definition row_same (row row_ref : list string) : bool :=
  ((List.length row =? List.length row_ref)%nat &&
   forallb (fun p => cell_same (fst p) (snd p)) (combine row row_ref))%bool.

(** Two readers yield as many rows with the same values, and no error. *)
Fixpoint same (rdr rdr_ref : list Pulled) : bool :=
  match rdr, rdr_ref with
  | [], [] => true
  | Row row :: rdr', Row row_ref :: rdr_ref' =>
      (row_same row row_ref && same rdr' rdr_ref')%bool
  | _, _ => false
  end.

(** A string of whitespace only. *)
Fixpoint all_space (s : string) : bool :=
  match s with
  | EmptyString => true
  | String c r => (Py.isspace c && all_space r)%bool
  end.

(** A string without a newline character. *)
Fixpoint no_newline (s : string) : bool :=
  match s with
  | EmptyString => true
  | String c r => (negb (Ascii.eqb c "010") && no_newline r)%bool
  end.

(** A comment line: a hash, a text without newline, and the newline. *)
Definition comment_line (body : string) : string :=
  String "#" (body ++ String "010" EmptyString).

(** Comment lines one after the other. *)
Definition comment_block (bodies : list string) : string :=
  fold_right (fun body rest => comment_line body ++ rest) EmptyString bodies.

End Shape.

(* ================================================================== *)
(** ** Facts about binary64 arithmetic *)
(* ================================================================== *)

Module FloatFacts.

Import Py.

#[local] Hint Constructors signed : core.

Lemma signed_nonneg x : signed false x -> Spec.nonneg x = true.
Proof. now destruct 1. Qed.

Lemma nonneg_not_nan x : Spec.nonneg x = true -> is_nan x = false.
Proof. now destruct x. Qed.

Lemma iter_pos_invariant {A} (P : A -> Prop) (f : A -> A) :
  (forall x, P x -> P (f x)) ->
  forall n x, P x -> P (iter_pos f n x).
Proof.
  intros Hf; induction n as [n IH|n IH|]; intros x Hx; simpl; auto.
Qed.

Lemma shr_1_nonneg r : 0 <= shr_m r -> 0 <= shr_m (shr_1 r).
Proof.
  destruct r as [m r s]; simpl.
  destruct m as [|[p|p|]|[p|p|]]; simpl; lia.
Qed.

Lemma shr_nonneg r e n : 0 <= shr_m r -> 0 <= shr_m (fst (shr r e n)).
Proof.
  intros H; destruct n; simpl; auto.
  apply (iter_pos_invariant (fun r => 0 <= shr_m r)); auto using shr_1_nonneg.
Qed.

Lemma shr_fexp_nonneg m e l :
  0 <= m -> 0 <= shr_m (fst (shr_fexp prec emax m e l)).
Proof.
  intros H; unfold shr_fexp; apply shr_nonneg.
  destruct l as [|[]]; simpl; exact H.
Qed.

Lemma round_nearest_even_nonneg m l : 0 <= m -> 0 <= round_nearest_even m l.
Proof.
  intros H; destruct l as [|[]]; simpl; try lia.
  destruct (Z.even m); lia.
Qed.

(** Rounding a non-negative mantissa yields a float of the given sign. *)
Lemma binary_round_aux_signed s mx ex lx :
  0 <= mx -> signed s (binary_round_aux prec emax s mx ex lx).
Proof.
  intros H; unfold binary_round_aux.
  pose proof (shr_fexp_nonneg mx ex lx H) as H1.
  destruct (shr_fexp prec emax mx ex lx) as [mrs' e']; simpl in H1.
  pose proof (shr_fexp_nonneg _ e' loc_Exact
                (round_nearest_even_nonneg _ (loc_of_shr_record mrs') H1)) as H2.
  destruct (shr_fexp prec emax _ e' loc_Exact) as [mrs'' e'']; simpl in H2.
  destruct (shr_m mrs''); [auto | | lia].
  destruct (e'' <=? emax - prec); auto.
Qed.

(** The sign given to the rounding only shows as the sign of the
    result. *)
Lemma fabs_binary_round_aux s mx ex lx :
  fabs (binary_round_aux prec emax s mx ex lx)
  = binary_round_aux prec emax false mx ex lx.
Proof.
  unfold fabs, binary_round_aux.
  destruct (shr_fexp prec emax mx ex lx) as [mrs' e'].
  destruct (shr_fexp prec emax _ e' loc_Exact) as [mrs'' e''].
  destruct (shr_m mrs''); simpl; auto.
  destruct (e'' <=? _); reflexivity.
Qed.

Lemma div_core_nonneg mx ex my ey :
  0 <= fst (fst (SFdiv_core_binary prec emax (Zpos mx) ex (Zpos my) ey)).
Proof.
  unfold SFdiv_core_binary.
  set (m' := match _ - _ - _ with Z0 => _ | Zpos _ => _ | Zneg _ => _ end).
  assert (Hm : 0 <= m').
  { subst m'. destruct (_ - _ - _); try lia.
    apply Z.shiftl_nonneg; lia. }
  pose proof (Z.div_pos m' (Zpos my) Hm ltac:(lia)) as Hq.
  unfold Z.div in Hq.
  destruct (Z.div_eucl m' (Zpos my)) as [q r]; simpl in *; exact Hq.
Qed.

(** [|x / y| = |x| / |y|], bit for bit. *)
Lemma fabs_fdiv x y : fabs (fdiv x y) = fdiv (fabs x) (fabs y).
Proof.
  destruct x as [sx|sx| |sx mx ex], y as [sy|sy| |sy my ey]; simpl; auto.
  destruct (SFdiv_core_binary prec emax (Zpos mx) ex (Zpos my) ey)
    as [[mz ez] lz].
  apply fabs_binary_round_aux.
Qed.

Lemma fabs_nonneg_or_nan x : is_nan (fabs x) = false -> signed false (fabs x).
Proof. destruct x; simpl; auto; discriminate. Qed.

Lemma fadd_nonneg x y :
  signed false x -> signed false y -> signed false (fadd x y).
Proof.
  intros [| |mx ex] [| |my ey]; simpl; auto.
  unfold binary_normalize.
  destruct (shl_align mx ex (Z.min ex ey)) as [ax ?],
           (shl_align my ey (Z.min ex ey)) as [ay ?]; simpl.
  unfold binary_round.
  destruct (shl_align _ _ _) as [mz ez].
  apply binary_round_aux_signed; lia.
Qed.

Lemma fdiv_nonneg x m e :
  signed false x -> signed false (fdiv x (S754_finite false m e)).
Proof.
  intros [| |mx ex]; simpl; auto.
  pose proof (div_core_nonneg mx ex m e) as H.
  destruct (SFdiv_core_binary prec emax (Zpos mx) ex (Zpos m) e)
    as [[mz ez] lz]; simpl in H.
  now apply binary_round_aux_signed.
Qed.

(** *** Integers that a float holds exactly *)

Lemma digits2_pos_size p : digits2_pos p = Pos.size p.
Proof. induction p; simpl; congruence. Qed.

Lemma digits2_small p : Zpos p < 2 ^ 53 -> Zpos (digits2_pos p) <= 53.
Proof.
  intros H. rewrite digits2_pos_size.
  pose proof (Pos.size_le p) as Hs.
  assert (Hz : 2 ^ Zpos (Pos.size p) <= 2 * Zpos p).
  { change 2 with (Zpos 2) at 1. rewrite <- Pos2Z.inj_pow.
    change (2 * Zpos p) with (Zpos p~0). exact Hs. }
  assert (Hlt : 2 ^ Zpos (Pos.size p) < 2 ^ 54) by (change (2 ^ 54) with (2 * 2 ^ 53); lia).
  apply Z.pow_lt_mono_r_iff in Hlt; lia.
Qed.

Lemma digits2_pos_iter p k :
  Zpos (digits2_pos (Pos.iter xO p k)) = Zpos (digits2_pos p) + Zpos k.
Proof.
  induction k using Pos.peano_ind.
  - simpl. lia.
  - rewrite Pos.iter_succ. simpl. lia.
Qed.

Lemma binary_round_aux_canonical s m e :
  fexp prec emax (Zpos (digits2_pos m) + e) = e -> e <= emax - prec ->
  binary_round_aux prec emax s (Zpos m) e loc_Exact = S754_finite s m e.
Proof.
  intros Hc He.
  assert (Hs : shr_fexp prec emax (Zpos m) e loc_Exact
               = ({| shr_m := Zpos m; shr_r := false; shr_s := false |}, e)).
  { unfold shr_fexp. simpl Zdigits2. rewrite Hc, Z.sub_diag. reflexivity. }
  unfold binary_round_aux. rewrite Hs. simpl loc_of_shr_record.
  simpl round_nearest_even. simpl shr_m. rewrite Hs. simpl shr_m.
  apply Z.leb_le in He. rewrite He. reflexivity.
Qed.

Lemma round_Z_small n :
  0 < n < 2 ^ 53 -> exists m e, round_Z n = S754_finite false m e.
Proof.
  intros [Hpos Hlt]. destruct n as [|p|p]; try lia.
  pose proof (digits2_small p Hlt) as Hd.
  assert (H1 : 1 <= Zpos (digits2_pos p)) by lia.
  unfold round_Z, binary_normalize, binary_round, shl_align.
  set (d := Zpos (digits2_pos p)) in *.
  assert (Hf : fexp prec emax (d + 0) = d - 53).
  { unfold fexp, emin, prec, emax. lia. }
  rewrite Hf.
  destruct (d - 53 - 0) as [|k|k] eqn:Hk; try lia.
  - exists p, 0. apply binary_round_aux_canonical.
    + fold d. unfold fexp, emin, prec, emax. lia.
    + unfold emax, prec. lia.
  - exists (Pos.iter xO p k), (d - 53). apply binary_round_aux_canonical.
    + rewrite digits2_pos_iter. fold d. unfold fexp, emin, prec, emax. lia.
    + unfold emax, prec. lia.
Qed.

(** *** The order on floats that are not negative and not NaN *)

Ltac cmp_cases :=
  unfold fleb, fltb, fgtb, SFleb, SFltb; simpl;
  repeat match goal with
         | |- context [Pos.compare_cont Eq ?a ?b] =>
             change (Pos.compare_cont Eq a b) with (Pos.compare a b)
         | H : context [Pos.compare_cont Eq ?a ?b] |- _ =>
             change (Pos.compare_cont Eq a b) with (Pos.compare a b) in H
         end;
  repeat match goal with
         | |- context [Z.compare ?a ?b] => destruct (Z.compare_spec a b)
         | |- context [Pos.compare ?a ?b] => destruct (Pos.compare_spec a b)
         end;
  simpl; try easy; try lia.

Lemma fleb_refl x : signed false x -> fleb x x = true.
Proof. intros [| |m e]; cmp_cases. Qed.

Lemma fleb_trans x y z :
  signed false x -> signed false y -> signed false z ->
  fleb x y = true -> fleb y z = true -> fleb x z = true.
Proof. intros [| |mx ex] [| |my ey] [| |mz ez]; cmp_cases. Qed.

Lemma fltb_fleb x y : fltb x y = true -> fleb x y = true.
Proof. unfold fltb, fleb, SFltb, SFleb. now destruct (SFcompare x y) as [[]|]. Qed.

Lemma not_fltb_fleb x y :
  signed false x -> signed false y -> fltb x y = false -> fleb y x = true.
Proof. intros [| |mx ex] [| |my ey]; cmp_cases. Qed.

Lemma max_cases d m : max d m = d \/ max d m = m.
Proof. unfold max. destruct (fgtb m d); auto. Qed.

Lemma max_signed d m : signed false d -> signed false m -> signed false (max d m).
Proof. intros; destruct (max_cases d m) as [->| ->]; auto. Qed.

Lemma max_ge_l d m : signed false d -> signed false m -> fleb d (max d m) = true.
Proof.
  intros Hd Hm. unfold max, fgtb. fold (fltb d m).
  destruct (fltb d m) eqn:E; [now apply fltb_fleb | now apply fleb_refl].
Qed.

Lemma max_ge_r d m : signed false d -> signed false m -> fleb m (max d m) = true.
Proof.
  intros Hd Hm. unfold max, fgtb. fold (fltb d m).
  destruct (fltb d m) eqn:E; [now apply fleb_refl | now apply not_fltb_fleb].
Qed.

Lemma max_zero d : signed false d -> max d fzero = d.
Proof. intros [| |m e]; reflexivity. Qed.

End FloatFacts.

Import FloatFacts.

(* ================================================================== *)
(** ** The cell loop and the row walk *)
(* ================================================================== *)

Section Walk.

#[local] Hint Constructors Py.signed : core.

(** The code's deviation is the specified one, and the division never
    raises. *)
Lemma delta_deviation c r : delta c r = Py.Return (Spec.deviation c r).
Proof.
  unfold delta, Spec.deviation, Spec.is_zero.
  destruct (Py.feqb c Py.fzero && Py.feqb r Py.fzero)%bool; [reflexivity|].
  destruct (Py.feqb r Py.fzero) eqn:Er; [reflexivity|].
  unfold Py.truediv. rewrite Er. simpl. now rewrite fabs_fdiv.
Qed.

Lemma compare_cell_numeric a s s_ref c r :
  Py.parse_float s = Some c -> Py.parse_float s_ref = Some r ->
  compare_cell a s s_ref = Next (accumulate a (Spec.deviation c r)).
Proof.
  intros Hs Hr. unfold compare_cell, parse_cell.
  now rewrite Hs, Hr, delta_deviation.
Qed.

Lemma compare_cell_text a s s_ref :
  Py.parse_float s = None -> Py.parse_float s_ref = None ->
  compare_cell a s s_ref
  = if String.eqb (Py.strip s) (Py.strip s_ref) then Next a else Ret FAILURE.
Proof.
  intros Hs Hr. unfold compare_cell, parse_cell. now rewrite Hs, Hr.
Qed.

Lemma compare_cell_mixed a s s_ref :
  Spec.numeric s <> Spec.numeric s_ref -> compare_cell a s s_ref = Ret FAILURE.
Proof.
  unfold Spec.numeric, compare_cell, parse_cell.
  destruct (Py.parse_float s), (Py.parse_float s_ref); congruence.
Qed.

(** One pair of cells leaves the variables as the deviations of that pair
    dictate, whenever the loop goes on. *)
Lemma compare_cell_next a s s_ref a' :
  compare_cell a s s_ref = Next a' ->
  a' = fold_left accumulate (Spec.cell_deviations [(s, s_ref)]) a.
Proof.
  unfold compare_cell, parse_cell; simpl.
  destruct (Py.parse_float s) as [c|], (Py.parse_float s_ref) as [r|];
    try discriminate.
  - rewrite delta_deviation. now intros [= <-].
  - destruct (String.eqb _ _); [now intros [= <-] | discriminate].
Qed.

Lemma cell_deviations_cons s s_ref rest :
  Spec.cell_deviations ((s, s_ref) :: rest)
  = (Spec.cell_deviations [(s, s_ref)] ++ Spec.cell_deviations rest)%list.
Proof.
  simpl. now destruct (Py.parse_float s), (Py.parse_float s_ref).
Qed.

Lemma zip_cells_next cells : forall a a',
  zip_cells cells a = Next a' ->
  a' = fold_left accumulate (Spec.cell_deviations cells) a.
Proof.
  induction cells as [|[s s_ref] rest IH]; intros a a'.
  - now intros [= <-].
  - cbn [zip_cells]. rewrite cell_deviations_cons, fold_left_app.
    destruct (compare_cell a s s_ref) as [a1| |] eqn:E; try discriminate.
    intros H. apply compare_cell_next in E. subst a1. now apply IH.
Qed.

(** Indexing the two rows at [0 .. len(row) - 1] visits the paired
    cells. *)
Lemma for_cells_zip_from pre pre_ref row : forall row_ref a,
  List.length pre = List.length pre_ref ->
  List.length row = List.length row_ref ->
  for_cells (pre ++ row) (pre_ref ++ row_ref)
    (seq (List.length pre) (List.length row)) a
  = zip_cells (combine row row_ref) a.
Proof.
  revert pre pre_ref.
  induction row as [|s row IH]; intros pre pre_ref [|s_ref row_ref] a Hp Hl;
    try discriminate; [reflexivity|].
  cbn [List.length seq for_cells combine zip_cells].
  rewrite (nth_error_app2 pre) by lia.
  rewrite (nth_error_app2 pre_ref) by lia.
  rewrite <- Hp, !Nat.sub_diag. cbn [nth_error].
  destruct (compare_cell a s s_ref) as [a1| |]; try reflexivity.
  specialize (IH (pre ++ [s])%list (pre_ref ++ [s_ref])%list row_ref a1).
  rewrite <- !app_assoc, !length_app in IH. cbn [List.length app] in IH.
  rewrite Nat.add_1_r in IH. apply IH; [lia | now injection Hl].
Qed.

Lemma for_cells_zip row row_ref a :
  List.length row = List.length row_ref ->
  for_cells row row_ref (seq 0 (List.length row)) a
  = zip_cells (combine row row_ref) a.
Proof. intros H. now apply (for_cells_zip_from [] []). Qed.

(** A walk that completes has accumulated exactly the deviations. *)
Lemma walk_next rdr : forall rdr_ref a a',
  walk rdr rdr_ref a = Next a' ->
  a' = fold_left accumulate (Spec.deviations rdr rdr_ref) a.
Proof.
  induction rdr as [|[row|] rdr IH]; intros [|[row_ref|] rdr_ref] a a';
    cbn [walk Spec.deviations]; try discriminate.
  - now intros [= <-].
  - destruct (Nat.eqb_spec (List.length row) (List.length row_ref)) as [Hl|];
      cbn [negb]; try discriminate.
    rewrite for_cells_zip by exact Hl. rewrite fold_left_app.
    destruct (zip_cells _ a) as [a1| |] eqn:E; try discriminate.
    apply zip_cells_next in E. subst a1. apply IH.
Qed.

End Walk.

(* ================================================================== *)
(** ** Maximum, sum and count of the deviations *)
(* ================================================================== *)

Section Aggregates.

#[local] Hint Constructors Py.signed : core.

Lemma n_cells_fold ds : forall a,
  n_cells (fold_left accumulate ds a) = n_cells a + Z.of_nat (List.length ds).
Proof.
  induction ds as [|d ds IH]; intros a; cbn [fold_left List.length].
  - lia.
  - rewrite IH. cbn [accumulate n_cells]. lia.
Qed.

Lemma avg_delta_fold ds : forall a,
  avg_delta (fold_left accumulate ds a) = fold_left Py.fadd ds (avg_delta a).
Proof.
  induction ds as [|d ds IH]; intros a; cbn [fold_left]; [reflexivity|].
  now rewrite IH.
Qed.

(** Every specified deviation is NaN or carries the plus sign. *)
Lemma deviation_signed c r :
  Py.is_nan (Spec.deviation c r) = false ->
  Py.signed false (Spec.deviation c r).
Proof.
  unfold Spec.deviation.
  destruct (_ && _)%bool; [constructor|].
  destruct (Spec.is_zero r); [constructor|].
  rewrite <- fabs_fdiv. apply fabs_nonneg_or_nan.
Qed.

Lemma cell_deviations_signed cells :
  Spec.no_nan (Spec.cell_deviations cells) = true ->
  Forall (Py.signed false) (Spec.cell_deviations cells).
Proof.
  induction cells as [|[s s_ref] rest IH]; cbn [Spec.cell_deviations];
    [constructor|].
  destruct (Py.parse_float s) as [c|], (Py.parse_float s_ref) as [r|]; auto.
  unfold Spec.no_nan; cbn [forallb]. intros [Hd Hrest]%andb_true_iff.
  constructor; [|now apply IH].
  apply deviation_signed. now destruct (Py.is_nan _).
Qed.

Lemma deviations_signed rdr : forall rdr_ref,
  Spec.no_nan (Spec.deviations rdr rdr_ref) = true ->
  Forall (Py.signed false) (Spec.deviations rdr rdr_ref).
Proof.
  induction rdr as [|[row|] rdr IH]; intros [|[row_ref|] rdr_ref];
    cbn [Spec.deviations]; try constructor.
  unfold Spec.no_nan. rewrite forallb_app. intros [H1 H2]%andb_true_iff.
  apply Forall_app; split; [now apply cell_deviations_signed | now apply IH].
Qed.

(** The running maximum over deviations without NaN. *)
Lemma max_delta_fold ds : forall a,
  Forall (Py.signed false) ds -> Py.signed false (max_delta a) ->
  let m := max_delta (fold_left accumulate ds a) in
  Py.signed false m /\
  (m = max_delta a \/ In m ds) /\
  Py.fleb (max_delta a) m = true /\
  (forall d, In d ds -> Py.fleb d m = true).
Proof.
  induction ds as [|d ds IH]; intros a Hds Ha; cbn [fold_left].
  - cbn zeta. split; [|split; [|split]]; auto using fleb_refl.
  - inversion Hds as [|? ? Hd Hds']; subst.
    assert (Hm : Py.signed false (max_delta (accumulate a d)))
      by (now apply max_signed).
    destruct (IH (accumulate a d) Hds' Hm) as (Hs & Hin & Hle & Hall).
    cbn zeta. split; [|split; [|split]]; auto.
    + destruct Hin as [Hin|Hin]; [|right; now right].
      rewrite Hin. cbn [accumulate max_delta].
      destruct (max_cases d (max_delta a)) as [->| ->]; [right; now left|now left].
    + eapply fleb_trans; [| | |apply (max_ge_r d (max_delta a)); auto|exact Hle]; auto.
    + intros x [<-|Hx]; [|now apply Hall].
      eapply fleb_trans; [| | |apply (max_ge_l d (max_delta a)); auto|exact Hle]; auto.
Qed.

(** From the initial variables the maximum is one of the deviations. *)
Lemma max_delta_is_maximum ds :
  Forall (Py.signed false) ds ->
  Spec.is_maximum (max_delta (fold_left accumulate ds acc0)) ds.
Proof.
  intros Hds. destruct ds as [|d ds].
  - split; [left; split; reflexivity | intros d []].
  - inversion Hds as [|? ? Hd Hds']; subst. cbn [fold_left].
    assert (E : accumulate acc0 d
                = {| max_delta := d; avg_delta := Py.fadd Py.fzero d; n_cells := 1 |}).
    { unfold accumulate, acc0; cbn [max_delta avg_delta n_cells].
      now rewrite max_zero. }
    rewrite E.
    destruct (max_delta_fold ds
                {| max_delta := d; avg_delta := Py.fadd Py.fzero d; n_cells := 1 |}
                Hds' Hd) as (Hs & Hin & Hle & Hall).
    cbn [max_delta] in *. split.
    + right. destruct Hin as [->|Hin]; [now left | now right].
    + intros x [<-|Hx]; auto.
Qed.

Lemma running_sum_signed ds : forall x,
  Forall (Py.signed false) ds -> Py.signed false x ->
  Py.signed false (fold_left Py.fadd ds x).
Proof.
  induction ds as [|d ds IH]; intros x Hds Hx; cbn [fold_left]; auto.
  inversion Hds; subst. apply IH; auto using fadd_nonneg.
Qed.

(** Lines 146-148 return, without raising, for every count a float holds
    exactly. *)
Lemma finish_returns a :
  0 <= n_cells a < 2 ^ 53 ->
  finish a = Py.Return
               (max_delta a,
                if 0 <? n_cells a
                then Py.fdiv (avg_delta a) (Py.round_Z (n_cells a))
                else avg_delta a).
Proof.
  intros Hn. unfold finish. destruct (0 <? n_cells a) eqn:E; [|reflexivity].
  apply Z.ltb_lt in E.
  destruct (round_Z_small (n_cells a)) as (m & e & Hr); [lia|].
  unfold Py.float_of_int. rewrite Hr. reflexivity.
Qed.

(** The report of a walk that completed, in terms of the deviations. *)
Lemma compare_rows_completed rdr rdr_ref a :
  walk rdr rdr_ref acc0 = Next a ->
  Spec.exact_count (Spec.deviations rdr rdr_ref) = true ->
  compare_rows rdr rdr_ref
  = Py.Return (max_delta (fold_left accumulate (Spec.deviations rdr rdr_ref) acc0),
               Spec.mean (Spec.deviations rdr rdr_ref)).
Proof.
  intros Hw Hc. unfold compare_rows. rewrite Hw.
  apply walk_next in Hw. subst a.
  set (ds := Spec.deviations rdr rdr_ref) in *.
  unfold Spec.exact_count in Hc. apply Z.ltb_lt in Hc.
  rewrite finish_returns by (rewrite n_cells_fold; cbn [acc0 n_cells]; lia).
  rewrite n_cells_fold, avg_delta_fold. cbn [acc0 n_cells avg_delta].
  f_equal. f_equal. unfold Spec.mean, Spec.running_sum.
  destruct ds as [|d ds]; [reflexivity|].
  replace (0 <? 0 + Z.of_nat (List.length (d :: ds))) with true; [reflexivity|].
  symmetry. apply Z.ltb_lt. cbn [List.length]. lia.
Qed.

End Aggregates.

(* ================================================================== *)
(** ** When a comparison is graded *)
(* ================================================================== *)

Lemma compare_cell_shape a s s_ref :
  compare_cell a s s_ref
  = if Shape.cell_compatible s s_ref
    then Next (fold_left accumulate (Spec.cell_deviations [(s, s_ref)]) a)
    else Ret FAILURE.
Proof.
  unfold compare_cell, parse_cell, Shape.cell_compatible.
  cbn [Spec.cell_deviations].
  destruct (Py.parse_float s) as [c|], (Py.parse_float s_ref) as [r|];
    try reflexivity.
  now rewrite delta_deviation.
Qed.

Lemma zip_cells_shape cells : forall a,
  zip_cells cells a
  = if forallb (fun p => Shape.cell_compatible (fst p) (snd p)) cells
    then Next (fold_left accumulate (Spec.cell_deviations cells) a)
    else Ret FAILURE.
Proof.
  induction cells as [|[s s_ref] rest IH]; intros a; [reflexivity|].
  cbn [zip_cells forallb fst snd]. rewrite compare_cell_shape.
  destruct (Shape.cell_compatible s s_ref); [|reflexivity].
  cbn [andb]. rewrite IH.
  now rewrite (cell_deviations_cons s s_ref rest), fold_left_app.
Qed.

Lemma walk_shape rdr : forall rdr_ref a,
  walk rdr rdr_ref a
  = if Shape.compatible rdr rdr_ref
    then Next (fold_left accumulate (Spec.deviations rdr rdr_ref) a)
    else Ret FAILURE.
Proof.
  induction rdr as [|[row|] rdr IH]; intros [|[row_ref|] rdr_ref] a;
    cbn [walk Shape.compatible Spec.deviations]; try reflexivity.
  unfold Shape.row_compatible.
  destruct (Nat.eqb_spec (List.length row) (List.length row_ref)) as [Hl|];
    cbn [negb andb]; [|reflexivity].
  rewrite for_cells_zip by exact Hl. rewrite zip_cells_shape, fold_left_app.
  destruct (forallb _ (combine row row_ref)); [|reflexivity].
  cbn [andb]. apply IH.
Qed.

(* ================================================================== *)
(** ** The properties of the comparison *)
(* ================================================================== *)

(** A prefix of row pairs that compares without abort hands its variables
    to the rest of the walk. *)
Lemma walk_app pre : forall pre_ref a0 a rest rest_ref,
  walk pre pre_ref a0 = Next a ->
  walk (pre ++ rest) (pre_ref ++ rest_ref) a0 = walk rest rest_ref a.
Proof.
  induction pre as [|[row|] pre IH]; intros [|[row_ref|] pre_ref] a0 a rest rest_ref;
    cbn [walk app]; try discriminate.
  - now intros [= <-].
  - destruct (negb _); try discriminate.
    destruct (for_cells _ _ _ a0) as [a1| |]; try discriminate.
    apply IH.
Qed.

(** The loop body goes on or returns the sentinel; it raises nothing. *)
Lemma compare_cell_flow a s s_ref :
  match compare_cell a s s_ref with
  | Next _ => True
  | Ret r => r = FAILURE
  | Exc _ => False
  end.
Proof.
  unfold compare_cell, parse_cell.
  destruct (Py.parse_float s) as [c|], (Py.parse_float s_ref) as [r|]; auto.
  - now rewrite delta_deviation.
  - now destruct (String.eqb _ _).
Qed.

Lemma zip_cells_flow cells : forall a,
  match zip_cells cells a with
  | Next _ => True
  | Ret r => r = FAILURE
  | Exc _ => False
  end.
Proof.
  induction cells as [|[s s_ref] rest IH]; intros a; cbn [zip_cells]; auto.
  pose proof (compare_cell_flow a s s_ref) as H.
  destruct (compare_cell a s s_ref); [apply IH | exact H | exact H].
Qed.

(** A pair of cells that returns the sentinel from any state ends the cell
    loop with the sentinel, whatever precedes and follows it. *)
Lemma zip_cells_stop before : forall a s s_ref after,
  (forall a', compare_cell a' s s_ref = Ret FAILURE) ->
  zip_cells (before ++ (s, s_ref) :: after) a = Ret FAILURE.
Proof.
  induction before as [|[t t_ref] before IH]; intros a s s_ref after Hall;
    cbn [zip_cells app].
  - now rewrite Hall.
  - pose proof (compare_cell_flow a t t_ref) as H.
    destruct (compare_cell a t t_ref); [now apply IH | now subst | easy].
Qed.

(** C1. For a cell pair whose two cells parse as floats, the loop body goes
    on with the variables updated by a deviation [d] that is [0.0] when both
    values are zero, [999.9] when the reference is zero and the candidate is
    not, and [|candidate - reference| / |reference|] otherwise. *)
Theorem C1_relative_deviation : forall a s s_ref cell cell_ref,
  Py.parse_float s = Some cell ->
  Py.parse_float s_ref = Some cell_ref ->
  exists d,
    compare_cell a s s_ref = Next (accumulate a d) /\
    d = Spec.deviation cell cell_ref /\
    (Spec.is_zero cell = true -> Spec.is_zero cell_ref = true ->
     d = Py.fzero) /\
    (Spec.is_zero cell_ref = true -> Spec.is_zero cell = false ->
     d = Demo.lit "999.9") /\
    (Spec.is_zero cell_ref = false ->
     d = Py.fdiv (Py.fabs (Py.fsub cell cell_ref)) (Py.fabs cell_ref)).
Proof.
  intros a s s_ref c r Hs Hr. exists (Spec.deviation c r).
  split; [now apply compare_cell_numeric|]. split; [reflexivity|].
  unfold Spec.deviation. repeat split.
  - now intros -> ->.
  - now intros -> ->.
  - intros ->. now rewrite andb_false_r.
Qed.

(** The three examples of the specification: 10.0 against 5.0 deviates by
    1.0, 5.0 against 0.0 by 999.9, and 0.0 against 0.0 by 0.0. *)
Lemma C1_relative_deviation_witness :
  compare_cell acc0 "10.0" "5.0" = Next (accumulate acc0 (Demo.lit "1.0")) /\
  compare_cell acc0 "5.0" "0.0" = Next (accumulate acc0 (Demo.lit "999.9")) /\
  compare_cell acc0 "0.0" "0.0" = Next (accumulate acc0 (Demo.lit "0.0")).
Proof.
  split; [|split].
  - destruct (C1_relative_deviation acc0 "10.0" "5.0" _ _ eq_refl eq_refl)
      as (d & Hc & Hd & _). rewrite Hc, Hd. reflexivity.
  - destruct (C1_relative_deviation acc0 "5.0" "0.0" _ _ eq_refl eq_refl)
      as (d & Hc & Hd & _). rewrite Hc, Hd. reflexivity.
  - destruct (C1_relative_deviation acc0 "0.0" "0.0" _ _ eq_refl eq_refl)
      as (d & Hc & Hd & _). rewrite Hc, Hd. reflexivity.
Defined.

(** C3. After any prefix of row pairs that compare without abort, that
    is of as many rows on both sides, pair by pair of equal length and
    with compatible cells: when exactly one reader is exhausted while the
    other still yields a row, [compare] returns the sentinel; when both
    are exhausted the walk terminates successfully, from any values of
    the variables, and the report is computed from them; and a row pair of
    different lengths returns the sentinel whatever its cells hold. *)
Theorem C3_row_walk : forall pre pre_ref,
  Shape.compatible pre pre_ref = true ->
  (forall row rest,
      compare_rows pre (pre_ref ++ Row row :: rest) = Py.Return FAILURE) /\
  (forall row rest,
      compare_rows (pre ++ Row row :: rest) pre_ref = Py.Return FAILURE) /\
  (forall a,
      walk pre pre_ref a
      = Next (fold_left accumulate (Spec.deviations pre pre_ref) a)) /\
  compare_rows pre pre_ref
  = finish (fold_left accumulate (Spec.deviations pre pre_ref) acc0) /\
  (forall row row_ref rest rest_ref,
      List.length row <> List.length row_ref ->
      compare_rows (pre ++ Row row :: rest) (pre_ref ++ Row row_ref :: rest_ref)
      = Py.Return FAILURE).
Proof.
  intros pre pre_ref Hc.
  assert (Hw : forall a,
             walk pre pre_ref a
             = Next (fold_left accumulate (Spec.deviations pre pre_ref) a))
    by (intros a; now rewrite walk_shape, Hc).
  unfold compare_rows. split; [|split; [|split; [|split]]].
  - intros row rest. rewrite <- (app_nil_r pre) at 1.
    now rewrite (walk_app _ _ _ _ _ _ (Hw acc0)).
  - intros row rest. rewrite <- (app_nil_r pre_ref) at 1.
    now rewrite (walk_app _ _ _ _ _ _ (Hw acc0)).
  - exact Hw.
  - now rewrite Hw.
  - intros row row_ref rest rest_ref Hl.
    rewrite (walk_app _ _ _ _ _ _ (Hw acc0)). cbn [walk].
    now destruct (Nat.eqb_spec (List.length row) (List.length row_ref)).
Qed.

Lemma C3_row_walk_witness :
  compare_rows (Demo.rows [["1"]; ["2"]]) (Demo.rows [["1"]; ["2"]; ["3"]])
  = Py.Return FAILURE /\
  compare_rows (Demo.rows [["1"]; ["2"]; ["3"]]) (Demo.rows [["1"]; ["2"]])
  = Py.Return FAILURE /\
  walk (Demo.rows [["1"]; ["2"]]) (Demo.rows [["1"]; ["2"]]) acc0
  = Next {| max_delta := Py.fzero; avg_delta := Py.fzero; n_cells := 2 |} /\
  compare_rows (Demo.rows [["1"]; ["2"]]) (Demo.rows [["1"]; ["2"]])
  = Py.Return (Py.fzero, Py.fzero) /\
  compare_rows (Demo.rows [["1"]; ["2"]; ["x"; "y"; "z"]])
               (Demo.rows [["1"]; ["2"]; ["x"; "y"]])
  = Py.Return FAILURE.
Proof.
  pose proof (C3_row_walk (Demo.rows [["1"]; ["2"]]) (Demo.rows [["1"]; ["2"]])
                eq_refl) as (H1 & H2 & H3 & H4 & H5).
  split; [exact (H1 ["3"] [])|]. split; [exact (H2 ["3"] [])|].
  split; [rewrite (H3 acc0); reflexivity|].
  split; [rewrite H4; reflexivity|].
  apply (H5 ["x"; "y"; "z"] ["x"; "y"] [] []). simpl. lia.
Defined.

(** C4. In a row pair reached without abort, a text cell against a text
    cell is decided by the equality of the stripped strings: equal ones
    let the loop body go on, and different ones make [compare] return the
    sentinel, as does a number against a text, whatever the cells before
    and after and the rows after hold. *)
Theorem C4_text_and_type_mismatch :
  forall pre pre_ref a before before_ref s s_ref after after_ref rest rest_ref,
  walk pre pre_ref acc0 = Next a ->
  List.length before = List.length before_ref ->
  ((Spec.numeric s = false /\ Spec.numeric s_ref = false /\
    Py.strip s <> Py.strip s_ref) \/
   Spec.numeric s <> Spec.numeric s_ref ->
   compare_rows (pre ++ Row (before ++ s :: after) :: rest)
                (pre_ref ++ Row (before_ref ++ s_ref :: after_ref) :: rest_ref)
   = Py.Return FAILURE) /\
  (Spec.numeric s = false -> Spec.numeric s_ref = false ->
   Py.strip s = Py.strip s_ref ->
   forall a', compare_cell a' s s_ref = Next a').
Proof.
  intros pre pre_ref a before before_ref s s_ref after after_ref rest rest_ref
         Hw Hb.
  split.
  - intros Hm.
    unfold compare_rows. rewrite (walk_app _ _ _ _ _ _ Hw). cbn [walk].
    destruct (Nat.eqb_spec (List.length (before ++ s :: after))
                           (List.length (before_ref ++ s_ref :: after_ref)))
      as [Hl|Hl]; cbn [negb]; [|reflexivity].
    rewrite for_cells_zip by exact Hl.
    assert (Hc : combine (before ++ s :: after)
                         (before_ref ++ s_ref :: after_ref)
                 = (combine before before_ref
                    ++ (s, s_ref) :: combine after after_ref)%list).
    { clear -Hb. revert before_ref Hb.
      induction before as [|x before IH]; intros [|y before_ref] Hb;
        try discriminate; [reflexivity|].
      cbn [app combine]. f_equal. apply IH. now injection Hb. }
    rewrite Hc, zip_cells_stop; [reflexivity|].
    intros a'. destruct Hm as [(Hs & Hr & Hne)|Hne].
    + unfold Spec.numeric in Hs, Hr.
      destruct (Py.parse_float s) eqn:Es; [discriminate|].
      destruct (Py.parse_float s_ref) eqn:Er; [discriminate|].
      rewrite compare_cell_text by assumption.
      destruct (String.eqb_spec (Py.strip s) (Py.strip s_ref));
        [contradiction|reflexivity].
    + now apply compare_cell_mixed.
  - unfold Spec.numeric. intros Hs Hr He a'.
    destruct (Py.parse_float s) eqn:Es; [discriminate|].
    destruct (Py.parse_float s_ref) eqn:Er; [discriminate|].
    rewrite compare_cell_text by assumption.
    now rewrite He, String.eqb_refl.
Qed.

Lemma C4_text_and_type_mismatch_witness :
  compare_rows (Demo.rows [["1"; "2"]; ["3"; " OK"; "5"]; ["7"]])
               (Demo.rows [["1"; "2"]; ["3"; "KO "; "x"]])
  = Py.Return FAILURE /\
  compare_rows (Demo.rows [["1"; "2"]; ["3"; "abc"; "5"]])
               (Demo.rows [["1"; "2"]; ["3"; "3.14"; "5"]])
  = Py.Return FAILURE /\
  compare_cell acc0 " OK" "OK  " = Next acc0.
Proof.
  split; [|split].
  - eapply (proj1 (C4_text_and_type_mismatch
             (Demo.rows [["1"; "2"]]) (Demo.rows [["1"; "2"]]) _
             ["3"] ["3"] " OK" "KO " ["5"] ["x"] [Row ["7"]] []
             eq_refl eq_refl)).
    left. split; [reflexivity|split; [reflexivity|]].
    vm_compute. discriminate.
  - eapply (proj1 (C4_text_and_type_mismatch
             (Demo.rows [["1"; "2"]]) (Demo.rows [["1"; "2"]]) _
             ["3"] ["3"] "abc" "3.14" ["5"] ["5"] [] []
             eq_refl eq_refl)).
    right. discriminate.
  - eapply (proj2 (C4_text_and_type_mismatch
             [] [] _ [] [] " OK" "OK  " [] [] [] [] eq_refl eq_refl));
      reflexivity.
Defined.

(** C5. A cell pair in which not both cells parse as numbers never changes
    the running maximum, the running sum or the count: the loop body goes
    on with the same variables or returns the sentinel, and it goes on
    when both are texts that are equal once stripped. *)
Theorem C5_only_numeric_pairs_accumulate : forall a s s_ref,
  (Spec.numeric s && Spec.numeric s_ref)%bool = false ->
  (compare_cell a s s_ref = Next a \/ compare_cell a s s_ref = Ret FAILURE) /\
  (Spec.numeric s = false -> Spec.numeric s_ref = false ->
   Py.strip s = Py.strip s_ref -> compare_cell a s s_ref = Next a).
Proof.
  intros a s s_ref H. unfold Spec.numeric in *. unfold compare_cell, parse_cell.
  destruct (Py.parse_float s) as [c|], (Py.parse_float s_ref) as [r|];
    try discriminate; (split; [auto|]); try discriminate.
  - destruct (String.eqb _ _); auto.
  - intros _ _ ->. now rewrite String.eqb_refl.
Qed.

Lemma C5_only_numeric_pairs_accumulate_witness :
  compare_cell (accumulate acc0 (Demo.lit "0.5")) " OK" "OK  "
  = Next (accumulate acc0 (Demo.lit "0.5")).
Proof.
  apply (C5_only_numeric_pairs_accumulate
           (accumulate acc0 (Demo.lit "0.5")) " OK" "OK  ");
    reflexivity.
Defined.

(** C2, refuted as stated: candidate row [2, nan, 1.5] against reference
    row [1, 1, 1] has the deviations 1.0, NaN and 0.5; the walk completes
    and returns the maximum 0.5, below the deviation 1.0. *)
Lemma C2_counterexample :
  ~ Spec.aggregates_as_stated (Demo.rows [["2"; "nan"; "1.5"]])
                              (Demo.rows [["1"; "1"; "1"]]).
Proof.
  intros H. destruct (H _ eq_refl) as (mx & Hc & _ & Hmax).
  vm_compute in Hc. injection Hc as <-.
  specialize (Hmax (Demo.lit "1.0")). vm_compute in Hmax.
  assert (false = true) by (apply Hmax; now left). discriminate.
Qed.

(** C2, amended. For a comparison that completes its row walk, in which
    no per-cell deviation is NaN and the count of numeric comparisons is
    below 2^53, [compare] returns the maximum of the per-cell deviations
    ([0.0] when there are none) and their running sum divided by their
    count ([0.0] when there are none). *)
Theorem C2_max_and_mean : forall rdr rdr_ref a,
  walk rdr rdr_ref acc0 = Next a ->
  Spec.no_nan (Spec.deviations rdr rdr_ref) = true ->
  Spec.exact_count (Spec.deviations rdr rdr_ref) = true ->
  exists mx,
    compare_rows rdr rdr_ref
    = Py.Return (mx, Spec.mean (Spec.deviations rdr rdr_ref)) /\
    Spec.is_maximum mx (Spec.deviations rdr rdr_ref).
Proof.
  intros rdr rdr_ref a Hw Hn Hc.
  eexists. split; [now apply (compare_rows_completed _ _ a)|].
  apply max_delta_is_maximum. now apply deviations_signed.
Qed.

(** The example of the specification: deviations 0.0, 0.5 and 1.0 in one
    row give the maximum 1.0 and the mean 0.5. *)
Lemma C2_max_and_mean_witness :
  compare_rows (Demo.rows [["1"; "1.5"; "2"]]) (Demo.rows [["1"; "1"; "1"]])
  = Py.Return (Demo.lit "1.0", Demo.lit "0.5").
Proof.
  destruct (C2_max_and_mean (Demo.rows [["1"; "1.5"; "2"]])
              (Demo.rows [["1"; "1"; "1"]]) _ eq_refl eq_refl eq_refl)
    as (mx & Hc & _).
  rewrite Hc. vm_compute in Hc. injection Hc as <-. reflexivity.
Defined.

(** C9, refuted as stated: candidate 5.0 against reference 0.0 completes
    the walk and returns exactly the sentinel, and so does 10009 against
    10, whose relative deviation is 999.9. *)
Lemma C9_counterexample :
  ~ Spec.sentinel_distinct_as_stated (Demo.rows [["5.0"]]) (Demo.rows [["0.0"]]) /\
  ~ Spec.sentinel_distinct_as_stated (Demo.rows [["10009"]]) (Demo.rows [["10"]]).
Proof.
  split; intros H; apply (H _ eq_refl); reflexivity.
Qed.

(** The running maximum is the initial one or one of the deviations,
    whatever they are. *)
Lemma max_delta_fold_in ds : forall a,
  max_delta (fold_left accumulate ds a) = max_delta a \/
  In (max_delta (fold_left accumulate ds a)) ds.
Proof.
  induction ds as [|d ds IH]; intros a; cbn [fold_left]; [now left|].
  destruct (IH (accumulate a d)) as [H|H]; [|right; now right].
  rewrite H. cbn [accumulate max_delta].
  destruct (max_cases d (max_delta a)) as [->| ->];
    [right; now left | now left].
Qed.

(** C9, amended. A comparison that completes its row walk returns the
    sentinel pair only if one of its per-cell deviations is exactly 999.9;
    when no per-cell deviation equals 999.9 it does not return the
    sentinel pair. *)
Theorem C9_sentinel_only_from_equal_deviation : forall rdr rdr_ref a,
  walk rdr rdr_ref acc0 = Next a ->
  (compare_rows rdr rdr_ref = Py.Return FAILURE ->
   In f999_9 (Spec.deviations rdr rdr_ref)) /\
  (forallb (fun d => negb (Py.feqb d f999_9)) (Spec.deviations rdr rdr_ref)
   = true ->
   compare_rows rdr rdr_ref <> Py.Return FAILURE).
Proof.
  intros rdr rdr_ref a Hw.
  assert (H1 : compare_rows rdr rdr_ref = Py.Return FAILURE ->
               In f999_9 (Spec.deviations rdr rdr_ref)).
  { unfold compare_rows. rewrite Hw. apply walk_next in Hw. subst a.
    set (a := fold_left accumulate _ acc0).
    assert (Hm : max_delta a = f999_9 ->
                 In f999_9 (Spec.deviations rdr rdr_ref)).
    { intros E.
      destruct (max_delta_fold_in (Spec.deviations rdr rdr_ref) acc0) as [H|H];
        fold a in H; rewrite E in H; [discriminate | exact H]. }
    unfold finish.
    destruct (0 <? n_cells a);
      [destruct (Py.float_of_int _); [cbn [Py.bind]|discriminate];
       destruct (Py.truediv _ _); [cbn [Py.bind]|discriminate]|];
      intros [= E _]; now apply Hm. }
  split; [exact H1|].
  intros Hne Hr. apply H1 in Hr.
  rewrite forallb_forall in Hne. specialize (Hne _ Hr). discriminate.
Qed.

Lemma C9_sentinel_only_from_equal_deviation_witness :
  compare_rows (Demo.rows [["1001"; "OK"]; ["4"; "0"]])
               (Demo.rows [["1"; "OK"]; ["5"; "0"]])
  <> Py.Return FAILURE /\
  compare_rows (Demo.rows [["nan"; "2e5"]]) (Demo.rows [["1"; "1"]])
  <> Py.Return FAILURE.
Proof.
  split.
  - exact (proj2 (C9_sentinel_only_from_equal_deviation
                    (Demo.rows [["1001"; "OK"]; ["4"; "0"]])
                    (Demo.rows [["1"; "OK"]; ["5"; "0"]]) _ eq_refl) eq_refl).
  - exact (proj2 (C9_sentinel_only_from_equal_deviation
                    (Demo.rows [["nan"; "2e5"]]) (Demo.rows [["1"; "1"]])
                    _ eq_refl) eq_refl).
Defined.

(** C10, refuted as stated: three cells 11 against 10 deviate by 0.1 each;
    the returned mean 0.10000000000000002 exceeds the returned maximum 0.1.
    And nan against 1 completes the walk with a NaN mean, of which
    [0 <= mean] is false. *)
Lemma C10_counterexample :
  ~ Spec.mean_below_max_as_stated (Demo.rows [["11"; "11"; "11"]])
                                  (Demo.rows [["10"; "10"; "10"]]) /\
  ~ Spec.mean_below_max_as_stated (Demo.rows [["nan"]]) (Demo.rows [["1"]]).
Proof.
  split; intros H; destruct (H _ _ _ eq_refl eq_refl) as [H0 H1];
    vm_compute in H0, H1; discriminate.
Qed.

Lemma mean_signed ds :
  Forall (Py.signed false) ds -> Spec.exact_count ds = true ->
  Py.signed false (Spec.mean ds).
Proof.
  intros Hs Hc. unfold Spec.mean. destruct ds as [|d ds]; [constructor|].
  unfold Spec.exact_count in Hc. apply Z.ltb_lt in Hc.
  destruct (round_Z_small (Z.of_nat (List.length (d :: ds)))) as (m & e & ->).
  { cbn [List.length] in *. lia. }
  apply fdiv_nonneg. apply running_sum_signed; [exact Hs|constructor].
Qed.

(** C10, amended. For a comparison that completes its row walk, in which
    no per-cell deviation is NaN and the count of numeric comparisons is
    below 2^53, the returned pair satisfies [0 <= mean_deviation] and
    [0 <= max_deviation], and [max_deviation] bounds every per-cell
    deviation. *)
Theorem C10_report_nonnegative : forall rdr rdr_ref a,
  walk rdr rdr_ref acc0 = Next a ->
  Spec.no_nan (Spec.deviations rdr rdr_ref) = true ->
  Spec.exact_count (Spec.deviations rdr rdr_ref) = true ->
  exists mx avg,
    compare_rows rdr rdr_ref = Py.Return (mx, avg) /\
    Py.fleb Py.fzero avg = true /\
    Py.fleb Py.fzero mx = true /\
    (forall d, In d (Spec.deviations rdr rdr_ref) -> Py.fleb d mx = true).
Proof.
  intros rdr rdr_ref a Hw Hn Hc.
  pose proof (deviations_signed _ _ Hn) as Hs.
  do 2 eexists. split; [now apply (compare_rows_completed _ _ a)|].
  destruct (max_delta_fold _ acc0 Hs ltac:(constructor)) as (Hm & _ & _ & Hall).
  split; [|split; [now apply signed_nonneg | exact Hall]].
  apply signed_nonneg. now apply mean_signed.
Qed.

Lemma C10_report_nonnegative_witness :
  exists mx avg,
    compare_rows (Demo.rows [["11"; "11"; "11"]]) (Demo.rows [["10"; "10"; "10"]])
    = Py.Return (mx, avg) /\
    Py.fleb Py.fzero avg = true /\ Py.fleb Py.fzero mx = true.
Proof.
  destruct (C10_report_nonnegative (Demo.rows [["11"; "11"; "11"]])
              (Demo.rows [["10"; "10"; "10"]]) _ eq_refl eq_refl eq_refl)
    as (mx & avg & Hc & H0 & H1 & _).
  exists mx, avg. auto.
Defined.

(* ================================================================== *)
(** ** The properties of the format sniffing *)
(* ================================================================== *)

(** The hash loop counts lines of the file and leaves the others. *)
Lemma hash_rows_length lines : forall n n' rest,
  hash_rows lines n = (n', rest) ->
  (n' + List.length rest = n + List.length lines)%nat.
Proof.
  induction lines as [|l lines IH]; intros n n' rest; cbn [hash_rows].
  - intros [= <- <-]. reflexivity.
  - destruct (Py.startswith l "#").
    + intros H. apply IH in H. cbn [List.length]. lia.
    + intros [= <- <-]. reflexivity.
Qed.

(** The outcome of [_identify_format] on a file that opens, case by
    case. *)
Lemma identify_format_cases E path content :
  fs E path = Some content ->
  let '(n, pos) := hash_rows (readlines content) 0 in
  let sample := read_sample pos in
  exists self,
    _identify_format E path = Py.Return self /\
    fpath self = path /\
    ((dialect self = excel /\ n_header_lines self = n) \/
     (exists d, sniff E sample delimiters = Some d /\
                dialect self = Sniffed d /\
                (1 < List.length (Py.split sample))%nat /\
                (n_header_lines self = n \/
                 has_header E sample = Some true /\ n_header_lines self = S n))).
Proof.
  intros Hfs. unfold _identify_format, open. rewrite Hfs. cbn [Py.bind].
  destruct (hash_rows (readlines content) 0) as [n pos].
  destruct (Nat.leb_spec (List.length (Py.split (read_sample pos))) 1).
  - eexists; split; [reflexivity|]; cbn; auto.
  - destruct (sniff E (read_sample pos) delimiters) as [d|] eqn:Es.
    + destruct (has_header E (read_sample pos)) as [[|]|] eqn:Eh;
        (eexists; split; [reflexivity|]; cbn; split; [reflexivity|]).
      * right. exists d. auto 10.
      * right. exists d. auto 10.
      * left. auto.
    + eexists; split; [reflexivity|]; cbn; auto.
Qed.

(** C7. For every file that opens, [_identify_format] returns a result and
    raises nothing, whatever the content: the dialect is the default
    ['excel'] when the sample holds at most one whitespace-separated token,
    when the sniffer fails to infer a delimiter, and when its header
    heuristic fails; and an empty file gives [n_header_lines = 0] with the
    default dialect. *)
Theorem C7_sniffing_never_raises : forall E path content,
  fs E path = Some content ->
  let sample := read_sample (snd (hash_rows (readlines content) 0)) in
  exists self,
    _identify_format E path = Py.Return self /\
    ((List.length (Py.split sample) <= 1)%nat -> dialect self = excel) /\
    (sniff E sample delimiters = None -> dialect self = excel) /\
    (has_header E sample = None -> dialect self = excel) /\
    (content = EmptyString ->
     n_header_lines self = 0%nat /\ dialect self = excel).
Proof.
  intros E path content Hfs.
  pose proof (identify_format_cases E path content Hfs) as H.
  destruct (hash_rows (readlines content) 0) as [n pos] eqn:Eh.
  cbn [snd]. destruct H as (self & Hr & _ & Hd).
  exists self. split; [exact Hr|].
  destruct Hd as [[Hd Hn]|(d & Hs & Hd & Hl & Hn)].
  - split; [auto|]. split; [auto|]. split; [auto|].
    intros ->. cbn in Eh. injection Eh as <- <-. auto.
  - split; [lia|]. split; [congruence|]. split.
    + intros Hh. exfalso. clear Hn.
      unfold _identify_format, open in Hr. rewrite Hfs in Hr. cbn [Py.bind] in Hr.
      rewrite Eh in Hr.
      destruct (Nat.leb_spec (List.length (Py.split (read_sample pos))) 1);
        [lia|].
      rewrite Hs, Hh in Hr. injection Hr as <-. discriminate.
    + intros ->. cbn in Eh. injection Eh as <- <-. cbn in Hl. lia.
Qed.

Lemma C7_sniffing_never_raises_witness :
  _identify_format (Demo.env [("empty.csv", EmptyString)]) "empty.csv"
  = Py.Return {| fpath := "empty.csv"; dialect := excel; n_header_lines := 0 |}
  /\
  exists self,
    _identify_format
      (Demo.env [("cols.txt", Demo.line "# t x" ++ Demo.line "0 1.5")])
      "cols.txt" = Py.Return self /\
    dialect self = excel.
Proof.
  split.
  - destruct (C7_sniffing_never_raises
                (Demo.env [("empty.csv", EmptyString)]) "empty.csv" EmptyString
                eq_refl) as (self & Hr & _).
    rewrite Hr. vm_compute in Hr. injection Hr as <-. reflexivity.
  - destruct (C7_sniffing_never_raises
                (Demo.env [("cols.txt", Demo.line "# t x" ++ Demo.line "0 1.5")])
                "cols.txt" _ eq_refl) as (self & Hr & _ & Hs & _).
    exists self. split; [exact Hr|]. apply Hs. reflexivity.
Defined.

(** The header count never exceeds the lines of the file: the heuristic
    adds its one only when the sample, which starts at the first line
    without a hash, is not empty. *)
Lemma header_count_le_lines E path content self :
  fs E path = Some content ->
  _identify_format E path = Py.Return self ->
  (n_header_lines self <= List.length (readlines content))%nat.
Proof.
  intros Hfs Hr.
  pose proof (identify_format_cases E path content Hfs) as H.
  destruct (hash_rows (readlines content) 0) as [n pos] eqn:Eh.
  apply hash_rows_length in Eh.
  destruct H as (self' & Hr' & _ & Hd).
  rewrite Hr in Hr'. injection Hr' as <-.
  destruct Hd as [[_ ->]|(d & _ & _ & Hl & [->|[_ ->]])]; try lia.
  destruct pos as [|l pos]; [cbn in Hl; lia|]. cbn [List.length] in Eh. lia.
Qed.

(** C8. For every file that opens, the [n_header_lines] that
    [_identify_format] produces is a natural number not above the number of
    lines of the file, also when the header heuristic has added one to the
    count of the leading hash lines. *)
Theorem C8_header_count_bounded : forall E path content self,
  fs E path = Some content ->
  _identify_format E path = Py.Return self ->
  0 <= Z.of_nat (n_header_lines self) /\
  (n_header_lines self <= List.length (readlines content))%nat.
Proof.
  intros E path content self Hfs Hr. split; [lia|].
  now apply (header_count_le_lines E path).
Qed.

Lemma C8_header_count_bounded_witness :
  exists self,
    _identify_format
      (Demo.env [("run.csv",
                  Demo.line "# first" ++ Demo.line "# second"
                  ++ Demo.line "1,2" ++ Demo.line "3,4")]) "run.csv"
    = Py.Return self /\
    (n_header_lines self <= 4)%nat.
Proof.
  eexists. split; [reflexivity|].
  destruct (C8_header_count_bounded
              (Demo.env [("run.csv",
                          Demo.line "# first" ++ Demo.line "# second"
                          ++ Demo.line "1,2" ++ Demo.line "3,4")]) "run.csv"
              _ _ eq_refl eq_refl) as [_ H].
  exact H.
Defined.

(* ================================================================== *)
(** ** A file against itself *)
(* ================================================================== *)

(** [compare] on two files whose data rows can be read. *)
Lemma compare_data_rows E self ref rdr rdr_ref :
  Spec.data_rows E self = Py.Return rdr ->
  Spec.data_rows E ref = Py.Return rdr_ref ->
  compare E self ref = compare_rows rdr rdr_ref.
Proof.
  unfold Spec.data_rows, compare.
  destruct (open E (fpath self)) as [f|]; cbn [Py.bind]; [|discriminate].
  destruct (open E (fpath ref)) as [f_ref|]; cbn [Py.bind]; [|discriminate].
  destruct (skip_lines _ f) as [f'|]; cbn [Py.bind]; [|discriminate].
  destruct (skip_lines _ f_ref) as [f_ref'|]; cbn [Py.bind]; [|discriminate].
  now intros [= <-] [= <-].
Qed.

Lemma skip_lines_defined n : forall f,
  (n <= List.length f)%nat -> exists f', skip_lines n f = Py.Return f'.
Proof.
  induction n as [|n IH]; intros f Hn; cbn [skip_lines]; [now exists f|].
  destruct f as [|l f]; cbn [List.length] in Hn; [lia|]. apply IH. lia.
Qed.

(** The header lines that [_identify_format] counted can be skipped: the
    data rows of a sniffed file are defined as long as the file is the
    same. *)
Lemma data_rows_defined E path self :
  _identify_format E path = Py.Return self ->
  exists rdr, Spec.data_rows E self = Py.Return rdr.
Proof.
  intros Hr.
  destruct (fs E path) as [content|] eqn:Hfs.
  - pose proof (header_count_le_lines E path content self Hfs Hr) as Hn.
    pose proof (identify_format_cases E path content Hfs) as H.
    destruct (hash_rows (readlines content) 0) as [n pos].
    destruct H as (self' & Hr' & Hp & _).
    rewrite Hr in Hr'. injection Hr' as <-.
    unfold Spec.data_rows, open. rewrite Hp, Hfs. cbn [Py.bind].
    destruct (skip_lines_defined _ _ Hn) as (f' & ->). cbn [Py.bind].
    now eexists.
  - unfold _identify_format, open in Hr. rewrite Hfs in Hr. discriminate.
Qed.

(** A finite number deviates from itself by [0.0]. *)
Lemma deviation_self c : Py.is_finite c = true -> Spec.deviation c c = Py.fzero.
Proof.
  destruct c as [s|s| |s m e]; try discriminate; intros _.
  - reflexivity.
  - unfold Spec.deviation.
    replace (Spec.is_zero (S754_finite s m e)) with false by now destruct s.
    cbn [andb]. unfold Py.fsub, SFsub.
    rewrite Z.sub_diag. cbn [binary_normalize]. reflexivity.
Qed.

Lemma zip_cells_self row : forall a,
  forallb Spec.numeric row = true ->
  zip_cells (combine row row) a
  = Next (fold_left accumulate (Spec.cell_deviations (combine row row)) a).
Proof.
  induction row as [|s row IH]; intros a; cbn [forallb combine zip_cells];
    [reflexivity|].
  intros [Hs Hrow]%andb_true_iff. unfold Spec.numeric in Hs.
  rewrite cell_deviations_cons, fold_left_app.
  destruct (Py.parse_float s) as [c|] eqn:Es; [|discriminate].
  rewrite (compare_cell_numeric a s s c c Es Es).
  cbn [Spec.cell_deviations]. rewrite Es. cbn [fold_left]. now apply IH.
Qed.

(** A file of numeric cells walks against itself to the end. *)
Lemma walk_self rdr : forall a,
  Spec.all_cells Spec.numeric rdr = true ->
  walk rdr rdr a = Next (fold_left accumulate (Spec.deviations rdr rdr) a).
Proof.
  induction rdr as [|[row|] rdr IH]; intros a; cbn [walk Spec.deviations];
    [reflexivity| |discriminate].
  unfold Spec.all_cells; cbn [forallb]. intros [Hrow Hrdr]%andb_true_iff.
  rewrite Nat.eqb_refl. cbn [negb].
  rewrite for_cells_zip by reflexivity.
  rewrite zip_cells_self by exact Hrow.
  rewrite fold_left_app. now apply IH.
Qed.

Lemma cell_deviations_self_zero row :
  forallb Spec.finite_numeric row = true ->
  Forall (eq Py.fzero) (Spec.cell_deviations (combine row row)).
Proof.
  induction row as [|s row IH]; cbn [forallb combine Spec.cell_deviations];
    [constructor|].
  intros [Hs Hrow]%andb_true_iff. unfold Spec.finite_numeric in Hs.
  destruct (Py.parse_float s) as [c|]; [|discriminate].
  constructor; [now rewrite deviation_self | now apply IH].
Qed.

Lemma deviations_self_zero rdr :
  Spec.all_cells Spec.finite_numeric rdr = true ->
  Forall (eq Py.fzero) (Spec.deviations rdr rdr).
Proof.
  induction rdr as [|[row|] rdr IH]; cbn [Spec.deviations];
    [constructor| |discriminate].
  unfold Spec.all_cells; cbn [forallb]. intros [Hrow Hrdr]%andb_true_iff.
  apply Forall_app; split; [now apply cell_deviations_self_zero | now apply IH].
Qed.

Lemma all_cells_finite_numeric rdr :
  Spec.all_cells Spec.finite_numeric rdr = true ->
  Spec.all_cells Spec.numeric rdr = true.
Proof.
  unfold Spec.all_cells. rewrite !forallb_forall. intros H r Hr.
  specialize (H r Hr). destruct r as [cells|]; [|discriminate].
  rewrite forallb_forall in *. intros s Hs. specialize (H s Hs).
  unfold Spec.finite_numeric, Spec.numeric in *.
  now destruct (Py.parse_float s).
Qed.

(** Deviations that are all [0.0] leave the maximum and the sum at
    [0.0]. *)
Lemma fold_zero ds : forall a,
  Forall (eq Py.fzero) ds ->
  max_delta a = Py.fzero -> avg_delta a = Py.fzero ->
  max_delta (fold_left accumulate ds a) = Py.fzero /\
  avg_delta (fold_left accumulate ds a) = Py.fzero.
Proof.
  induction ds as [|d ds IH]; intros a Hds Hm Hs; cbn [fold_left]; [auto|].
  inversion Hds as [|? ? <- Hds']; subst. apply IH; auto.
  - cbn [accumulate max_delta]. now rewrite Hm.
  - cbn [accumulate avg_delta]. now rewrite Hs.
Qed.

Lemma mean_zero ds :
  Forall (eq Py.fzero) ds -> Spec.exact_count ds = true ->
  Spec.mean ds = Py.fzero.
Proof.
  intros Hds Hc. unfold Spec.mean. destruct ds as [|d ds]; [reflexivity|].
  unfold Spec.exact_count in Hc. apply Z.ltb_lt in Hc.
  destruct (round_Z_small (Z.of_nat (List.length (d :: ds)))) as (m & e & ->).
  { cbn [List.length] in *. lia. }
  unfold Spec.running_sum. rewrite <- avg_delta_fold with (a := acc0).
  destruct (fold_zero (d :: ds) acc0 Hds eq_refl eq_refl) as [_ ->].
  reflexivity.
Qed.

(** C6, refuted as stated: a file whose only cell is nan, and one whose
    only cell is inf, are numeric throughout and compare against
    themselves to (NaN, NaN). *)
Lemma C6_counterexample :
  ~ Spec.self_compare_as_stated
      (Demo.env [("result.csv", Demo.line "nan")]) "result.csv" /\
  ~ Spec.self_compare_as_stated
      (Demo.env [("result.csv", Demo.line "1.0" ++ Demo.line "inf")])
      "result.csv".
Proof.
  split; intros H; specialize (H _ _ eq_refl eq_refl eq_refl);
    vm_compute in H; discriminate.
Qed.

(** C6, amended. For every file whose data rows are read without error
    and whose cells all parse as finite numbers (neither inf nor nan),
    fewer than 2^53 of them, comparing the sniffed file against itself
    returns exactly (0.0, 0.0). *)
Theorem C6_self_comparison : forall E path self rdr,
  _identify_format E path = Py.Return self ->
  Spec.data_rows E self = Py.Return rdr ->
  Spec.all_cells Spec.finite_numeric rdr = true ->
  Spec.exact_count (Spec.deviations rdr rdr) = true ->
  compare E self self = Py.Return (Py.fzero, Py.fzero).
Proof.
  intros E path self rdr _ Hd Hf Hc.
  rewrite (compare_data_rows E self self rdr rdr Hd Hd).
  pose proof (walk_self rdr acc0 (all_cells_finite_numeric rdr Hf)) as Hw.
  rewrite (compare_rows_completed _ _ _ Hw Hc).
  pose proof (deviations_self_zero rdr Hf) as Hz.
  destruct (fold_zero _ acc0 Hz eq_refl eq_refl) as [-> _].
  now rewrite mean_zero.
Qed.

Lemma C6_self_comparison_witness :
  exists self,
    _identify_format
      (Demo.env [("run.csv",
                  Demo.line "# t,x" ++ Demo.line "0,1.5" ++ Demo.line "1,-2e3")])
      "run.csv" = Py.Return self /\
    compare
      (Demo.env [("run.csv",
                  Demo.line "# t,x" ++ Demo.line "0,1.5" ++ Demo.line "1,-2e3")])
      self self = Py.Return (Py.fzero, Py.fzero).
Proof.
  eexists. split; [reflexivity|].
  eapply (C6_self_comparison
            (Demo.env [("run.csv",
                        Demo.line "# t,x" ++ Demo.line "0,1.5"
                        ++ Demo.line "1,-2e3")]) "run.csv");
    reflexivity.
Defined.

(* ================================================================== *)
(** ** Integers of any size as floats *)
(* ================================================================== *)

Section IntToFloat.

Import Py.


Lemma iter_pos_nat {A} (f : A -> A) p : forall x,
  iter_pos f p x = Nat.iter (Pos.to_nat p) f x.
Proof.
  induction p as [p IH|p IH|]; intros x; cbn [iter_pos].
  - rewrite !IH, Pos2Nat.inj_xI.
    replace (S (2 * Pos.to_nat p)) with (Pos.to_nat p + S (Pos.to_nat p))%nat
      by lia.
    now rewrite Nat.iter_add, Nat.iter_succ_r.
  - rewrite !IH, Pos2Nat.inj_xO.
    replace (2 * Pos.to_nat p)%nat with (Pos.to_nat p + Pos.to_nat p)%nat
      by lia.
    now rewrite Nat.iter_add.
  - reflexivity.
Qed.

Lemma shr_m_shr_1 r : 0 <= shr_m r -> shr_m (shr_1 r) = shr_m r / 2.
Proof.
  destruct r as [m r s]; cbn [shr_m shr_1].
  destruct m as [|[p|p|]|[p|p|]]; cbn [shr_m]; intros H;
    try reflexivity; try lia.
  - apply Z.div_unique with (r := 1); lia.
  - apply Z.div_unique with (r := 0); lia.
Qed.

Lemma shr_m_iter k : forall r,
  0 <= shr_m r -> shr_m (Nat.iter k shr_1 r) = shr_m r / 2 ^ Z.of_nat k.
Proof.
  induction k as [|k IH]; intros r H.
  - cbn. now rewrite Z.div_1_r.
  - rewrite Nat.iter_succ_r, IH by now apply FloatFacts.shr_1_nonneg.
    rewrite shr_m_shr_1 by exact H.
    rewrite Nat2Z.inj_succ, Z.pow_succ_r by lia.
    now rewrite Z.div_div by lia.
Qed.

Lemma digits2_lower p : 2 ^ (Zpos (digits2_pos p) - 1) <= Zpos p.
Proof.
  rewrite FloatFacts.digits2_pos_size.
  pose proof (Pos.size_le p) as Hs.
  assert (Hz : 2 ^ Zpos (Pos.size p) <= 2 * Zpos p).
  { change 2 with (Zpos 2) at 1. rewrite <- Pos2Z.inj_pow.
    change (2 * Zpos p) with (Zpos p~0). exact Hs. }
  replace (Zpos (Pos.size p)) with (Z.succ (Zpos (Pos.size p) - 1)) in Hz by lia.
  rewrite Z.pow_succ_r in Hz by lia. lia.
Qed.

Lemma shr_fexp_pos m e l :
  0 < m -> emin prec emax <= e ->
  0 < shr_m (fst (shr_fexp prec emax m e l)) /\
  emin prec emax <= snd (shr_fexp prec emax m e l).
Proof.
  intros Hm He. destruct m as [|p|p]; try lia.
  unfold shr_fexp, shr. cbn [Zdigits2].
  set (d := Zpos (digits2_pos p)).
  assert (Hr : shr_m (shr_record_of_loc (Zpos p) l) = Zpos p)
    by (now destruct l as [|[]]).
  destruct (fexp prec emax (d + e) - e) as [|k|k] eqn:En; cbn [fst snd].
  - rewrite Hr. lia.
  - rewrite iter_pos_nat, shr_m_iter by (rewrite Hr; lia).
    rewrite Hr, positive_nat_Z. split; [|lia].
    apply Z.div_str_pos. split; [apply Z.pow_pos_nonneg; lia|].
    etransitivity; [|apply digits2_lower]. fold d.
    apply Z.pow_le_mono_r; [lia|].
    unfold fexp, emin, prec, emax in *. lia.
  - rewrite Hr. lia.
Qed.

Lemma round_nearest_even_pos m l : 0 < m -> 0 < round_nearest_even m l.
Proof.
  intros H; destruct l as [|[]]; cbn; try lia. destruct (Z.even m); lia.
Qed.

(** Rounding a positive mantissa at an exponent of the format never
    underflows to zero. *)
Lemma binary_round_aux_pos s mx ex lx :
  0 < mx -> emin prec emax <= ex ->
  (exists m e, binary_round_aux prec emax s mx ex lx = S754_finite s m e) \/
  binary_round_aux prec emax s mx ex lx = S754_infinity s.
Proof.
  intros Hm He. unfold binary_round_aux.
  destruct (shr_fexp_pos mx ex lx Hm He) as [H1 E1].
  destruct (shr_fexp prec emax mx ex lx) as [mrs' e']; cbn [fst snd] in H1, E1.
  destruct (shr_fexp_pos _ e' loc_Exact
              (round_nearest_even_pos _ (loc_of_shr_record mrs') H1) E1)
    as [H2 _].
  destruct (shr_fexp prec emax _ e' loc_Exact) as [mrs'' e'']; cbn [fst] in H2.
  destruct (shr_m mrs'') as [|m|m]; try lia.
  destruct (e'' <=? emax - prec); [left; eauto | now right].
Qed.

Lemma round_Z_pos n :
  0 < n ->
  (exists m e, round_Z n = S754_finite false m e) \/
  round_Z n = S754_infinity false.
Proof.
  intros Hn. destruct n as [|p|p]; try lia.
  unfold round_Z, binary_normalize, binary_round.
  destruct (shl_align p 0 (fexp prec emax (Zpos (digits2_pos p) + 0)))
    as [mz ez] eqn:Es.
  apply binary_round_aux_pos; [lia|].
  unfold shl_align in Es.
  destruct (fexp prec emax (Zpos (digits2_pos p) + 0) - 0) eqn:Ef;
    injection Es as <- <-; unfold fexp, emin, prec, emax in *; lia.
Qed.

End IntToFloat.

(* ================================================================== *)
(** ** The outcomes of [compare] *)
(* ================================================================== *)

(** X1. The row walk is decided by the shape of the two files alone: when
    both readers yield as many rows without error, each pair of rows has
    as many cells, and each pair of cells is two numbers or two texts
    equal once stripped, the walk completes with the deviations of the
    numeric pairs accumulated and [compare] reports them; in every other
    case [compare] returns the sentinel. *)
Theorem X1_graded_iff_same_shape : forall rdr rdr_ref,
  (forall a,
      walk rdr rdr_ref a
      = if Shape.compatible rdr rdr_ref
        then Next (fold_left accumulate (Spec.deviations rdr rdr_ref) a)
        else Ret FAILURE) /\
  compare_rows rdr rdr_ref
  = if Shape.compatible rdr rdr_ref
    then finish (fold_left accumulate (Spec.deviations rdr rdr_ref) acc0)
    else Py.Return FAILURE.
Proof.
  intros rdr rdr_ref. split; [apply walk_shape|].
  unfold compare_rows. rewrite walk_shape.
  now destruct (Shape.compatible rdr rdr_ref).
Qed.

(** Lines 146-148 return unless the count is past the range of floats. *)
Lemma finish_outcome a :
  (exists avg, finish a = Py.Return (max_delta a, avg)) \/
  finish a = Py.Raise Py.OverflowError.
Proof.
  unfold finish. destruct (0 <? n_cells a) eqn:E; [|left; eauto].
  apply Z.ltb_lt in E. unfold Py.float_of_int.
  destruct (round_Z_pos _ E) as [(m & e & ->)| ->]; [left|now right].
  cbn [Py.bind]. unfold Py.truediv.
  change (Py.feqb (S754_finite false m e) Py.fzero) with false.
  cbn [Py.bind]. eauto.
Qed.

Lemma compare_rows_outcome rdr rdr_ref :
  (exists r, compare_rows rdr rdr_ref = Py.Return r) \/
  compare_rows rdr rdr_ref = Py.Raise Py.OverflowError.
Proof.
  unfold compare_rows. rewrite walk_shape.
  destruct (Shape.compatible rdr rdr_ref); [|left; eauto].
  destruct (finish_outcome (fold_left accumulate (Spec.deviations rdr rdr_ref) acc0))
    as [[avg ->]| ->]; eauto.
Qed.

(** [next(f)] repeated [n] times drops [n] lines, and raises
    [StopIteration] when the file has fewer. *)
Lemma skip_lines_spec n : forall f,
  skip_lines n f
  = if (n <=? List.length f)%nat then Py.Return (skipn n f)
    else Py.Raise Py.StopIteration.
Proof.
  induction n as [|n IH]; intros f; cbn [skip_lines]; [reflexivity|].
  destruct f as [|l f]; [reflexivity|]. now rewrite IH.
Qed.

(** X2. The only exceptions that leave [compare] are [IOError] (a file
    does not open), [StopIteration] (a file has fewer lines than its
    header count) and [OverflowError] (the count of numeric cells does not
    fit a float); the division by the reference cell and by the count
    never raises [ZeroDivisionError], and the indexing of the rows never
    raises [IndexError]. *)
Theorem X2_compare_exceptions : forall E self ref e,
  compare E self ref = Py.Raise e ->
  e = Py.IOError \/ e = Py.StopIteration \/ e = Py.OverflowError.
Proof.
  intros E self ref e. unfold compare, open.
  destruct (fs E (fpath self)) as [c|]; cbn [Py.bind];
    [|intros [= <-]; auto].
  destruct (fs E (fpath ref)) as [c_ref|]; cbn [Py.bind];
    [|intros [= <-]; auto].
  rewrite !skip_lines_spec.
  destruct (_ <=? _)%nat; cbn [Py.bind]; [|intros [= <-]; auto].
  destruct (_ <=? _)%nat; cbn [Py.bind]; [|intros [= <-]; auto].
  destruct (compare_rows_outcome
              (reader E (skipn (n_header_lines self) (readlines c)) (dialect self))
              (reader E (skipn (n_header_lines ref) (readlines c_ref)) (dialect ref)))
    as [[r ->]| ->]; [discriminate | intros [= <-]; auto].
Qed.

Lemma X2_compare_exceptions_witness :
  compare (Demo.env [("a.csv", Demo.line "1")])
          {| fpath := "a.csv"; dialect := excel; n_header_lines := 3 |}
          {| fpath := "a.csv"; dialect := excel; n_header_lines := 0 |}
  = Py.Raise Py.StopIteration.
Proof.
  destruct (X2_compare_exceptions
              (Demo.env [("a.csv", Demo.line "1")])
              {| fpath := "a.csv"; dialect := excel; n_header_lines := 3 |}
              {| fpath := "a.csv"; dialect := excel; n_header_lines := 0 |}
              Py.StopIteration eq_refl) as [H|[H|H]];
    try discriminate H. reflexivity.
Defined.

(** X3. [compare] raises [IOError] exactly when one of the two files does
    not open. *)
Theorem X3_compare_ioerror : forall E self ref,
  compare E self ref = Py.Raise Py.IOError <->
  fs E (fpath self) = None \/ fs E (fpath ref) = None.
Proof.
  intros E self ref. unfold compare, open.
  destruct (fs E (fpath self)) as [c|]; cbn [Py.bind];
    [|split; auto].
  destruct (fs E (fpath ref)) as [c_ref|]; cbn [Py.bind];
    [|split; auto].
  rewrite !skip_lines_spec.
  split; [|intros [H|H]; discriminate H].
  destruct (_ <=? _)%nat; cbn [Py.bind]; [|discriminate].
  destruct (_ <=? _)%nat; cbn [Py.bind]; [|discriminate].
  destruct (compare_rows_outcome
              (reader E (skipn (n_header_lines self) (readlines c)) (dialect self))
              (reader E (skipn (n_header_lines ref) (readlines c_ref)) (dialect ref)))
    as [[r ->]| ->]; discriminate.
Qed.

(** X4. When both files open, [compare] raises [StopIteration] exactly
    when one of them has fewer lines than the header count of its
    descriptor, as happens when a file was cut after it was sniffed. *)
Theorem X4_compare_stopiteration : forall E self ref c c_ref,
  fs E (fpath self) = Some c ->
  fs E (fpath ref) = Some c_ref ->
  (compare E self ref = Py.Raise Py.StopIteration <->
   (List.length (readlines c) < n_header_lines self)%nat \/
   (List.length (readlines c_ref) < n_header_lines ref)%nat).
Proof.
  intros E self ref c c_ref Hc Hr. unfold compare, open.
  rewrite Hc, Hr. cbn [Py.bind]. rewrite !skip_lines_spec.
  destruct (Nat.leb_spec (n_header_lines self) (List.length (readlines c)));
    cbn [Py.bind]; [|split; auto].
  destruct (Nat.leb_spec (n_header_lines ref) (List.length (readlines c_ref)));
    cbn [Py.bind]; [|split; auto].
  split; [|lia].
  destruct (compare_rows_outcome
              (reader E (skipn (n_header_lines self) (readlines c)) (dialect self))
              (reader E (skipn (n_header_lines ref) (readlines c_ref)) (dialect ref)))
    as [[r ->]| ->]; discriminate.
Qed.

Lemma X4_compare_stopiteration_witness :
  compare (Demo.env [("a.csv", Demo.line "# h" ++ Demo.line "1")])
          {| fpath := "a.csv"; dialect := excel; n_header_lines := 1 |}
          {| fpath := "a.csv"; dialect := excel; n_header_lines := 3 |}
  = Py.Raise Py.StopIteration.
Proof.
  apply (X4_compare_stopiteration
           (Demo.env [("a.csv", Demo.line "# h" ++ Demo.line "1")])
           {| fpath := "a.csv"; dialect := excel; n_header_lines := 1 |}
           {| fpath := "a.csv"; dialect := excel; n_header_lines := 3 |}
           _ _ eq_refl eq_refl).
  right. vm_compute. lia.
Defined.

(* ================================================================== *)
(** ** The header lines *)
(* ================================================================== *)

(** The hash loop from a count [n]: it adds the length of the longest
    prefix of lines that begin with a hash and stops at the rest. *)
Lemma hash_rows_prefix lines : forall n,
  exists k,
    hash_rows lines n = ((n + k)%nat, skipn k lines) /\
    (k <= List.length lines)%nat /\
    Forall (fun l => Py.startswith l "#" = true) (firstn k lines) /\
    match skipn k lines with
    | [] => True
    | l :: _ => Py.startswith l "#" = false
    end.
Proof.
  induction lines as [|l lines IH]; intros n; cbn [hash_rows].
  - exists 0%nat. rewrite Nat.add_0_r. cbn. auto.
  - destruct (Py.startswith l "#") eqn:E.
    + destruct (IH (S n)) as (k & Hh & Hk & Hf & Hs).
      exists (S k). rewrite Hh. cbn [skipn firstn List.length].
      split; [f_equal; lia|]. split; [lia|]. split; [|exact Hs].
      now constructor.
    + exists 0%nat. rewrite Nat.add_0_r. cbn [skipn firstn List.length].
      split; [reflexivity|]. split; [lia|]. split; [constructor | exact E].
Qed.

(** X5. The header count that the hash loop of [_identify_format] reaches
    is the length of the longest prefix of lines that begin with a hash:
    every counted line begins with one, the line at the saved position
    does not, and the saved position is the file without the counted
    lines. *)
Theorem X5_hash_rows_longest_prefix : forall lines,
  let '(n, pos) := hash_rows lines 0 in
  (n <= List.length lines)%nat /\
  pos = skipn n lines /\
  Forall (fun l => Py.startswith l "#" = true) (firstn n lines) /\
  match pos with
  | [] => True
  | l :: _ => Py.startswith l "#" = false
  end.
Proof.
  intros lines. destruct (hash_rows_prefix lines 0) as (k & -> & Hk & Hf & Hs).
  cbn [Nat.add]. auto.
Qed.

Lemma skipn_S_tl {A} n : forall l : list A, skipn (S n) l = tl (skipn n l).
Proof.
  induction n as [|n IH]; intros [|x l]; try reflexivity.
  change (skipn (S (S n)) (x :: l)) with (skipn (S n) l).
  change (skipn (S n) (x :: l)) with (skipn n l). apply IH.
Qed.

(** X6. A comparison run on a descriptor that [_identify_format] made of
    the same file never raises [StopIteration]: the header skip of
    [compare] ends where the sniffer saved its position, one line further
    when the heuristic judged that line a header, and the reader gets the
    lines from there on. *)
Theorem X6_compare_resumes_at_sniffed_position : forall E path content self,
  fs E path = Some content ->
  _identify_format E path = Py.Return self ->
  let '(n, pos) := hash_rows (readlines content) 0 in
  (n_header_lines self = n \/ n_header_lines self = S n) /\
  Spec.data_rows E self
  = Py.Return (reader E (if (n_header_lines self =? n)%nat then pos else tl pos)
                        (dialect self)).
Proof.
  intros E path content self Hfs Hr.
  pose proof (header_count_le_lines E path content self Hfs Hr) as Hle.
  pose proof (identify_format_cases E path content Hfs) as H.
  destruct (hash_rows_prefix (readlines content) 0) as (k & Hh & Hk & _ & _).
  rewrite Hh in *. cbn [Nat.add] in *.
  destruct H as (self' & Hr' & Hp & Hd).
  rewrite Hr in Hr'. injection Hr' as <-.
  assert (Hn : n_header_lines self = k \/ n_header_lines self = S k).
  { destruct Hd as [[_ ->]|(d & _ & _ & _ & [->|[_ ->]])]; auto. }
  split; [exact Hn|].
  unfold Spec.data_rows, open. rewrite Hp, Hfs. cbn [Py.bind].
  rewrite skip_lines_spec.
  destruct (Nat.leb_spec (n_header_lines self) (List.length (readlines content)));
    [|lia].
  cbn [Py.bind]. destruct Hn as [->| ->].
  - now rewrite Nat.eqb_refl.
  - replace (S k =? k)%nat with false by (symmetry; apply Nat.eqb_neq; lia).
    now rewrite skipn_S_tl.
Qed.

Lemma X6_compare_resumes_at_sniffed_position_witness :
  Spec.data_rows
    (Demo.env [("run.csv",
                Demo.line "# first" ++ Demo.line "# second"
                ++ Demo.line "1,2" ++ Demo.line "3,4")])
    {| fpath := "run.csv"; dialect := Sniffed Demo.comma; n_header_lines := 2 |}
  = Py.Return (Demo.rows [["1"; "2"]; ["3"; "4"]]).
Proof.
  destruct (X6_compare_resumes_at_sniffed_position
              (Demo.env [("run.csv",
                          Demo.line "# first" ++ Demo.line "# second"
                          ++ Demo.line "1,2" ++ Demo.line "3,4")])
              "run.csv" _ _ eq_refl eq_refl) as [_ H].
  rewrite H. reflexivity.
Defined.

(** *** A comment line more *)

Lemma readlines_line body : forall rest,
  Shape.no_newline body = true ->
  readlines (body ++ String "010" rest)
  = (body ++ String "010" EmptyString) :: readlines rest.
Proof.
  induction body as [|c body IH]; intros rest; cbn [Shape.no_newline append].
  - intros _. cbn [readlines]. now rewrite Ascii.eqb_refl.
  - intros [Hc Hb]%andb_true_iff. cbn [readlines].
    destruct (Ascii.eqb c "010"); [discriminate|]. now rewrite IH.
Qed.

Lemma append_assoc_line body content :
  (body ++ String "010" EmptyString) ++ content = body ++ String "010" content.
Proof. induction body as [|c body IH]; cbn [append]; [reflexivity|now rewrite IH]. Qed.

Lemma readlines_comment_line body content :
  Shape.no_newline body = true ->
  readlines (Shape.comment_line body ++ content)
  = Shape.comment_line body :: readlines content.
Proof.
  intros Hb. unfold Shape.comment_line. cbn [append].
  rewrite append_assoc_line.
  change (String "#" (body ++ String "010" content))
    with (String "#" body ++ String "010" content).
  rewrite readlines_line; [reflexivity|].
  cbn [Shape.no_newline]. now rewrite Hb.
Qed.

Lemma hash_rows_succ lines : forall n,
  hash_rows lines (S n)
  = (S (fst (hash_rows lines n)), snd (hash_rows lines n)).
Proof.
  induction lines as [|l lines IH]; intros n; cbn [hash_rows]; [reflexivity|].
  destruct (Py.startswith l "#"); [apply IH | reflexivity].
Qed.

(** X7. A comment line put before the content of a file changes nothing
    but the header count: the sniffed dialect is the same, the header
    count is one more, and [compare] gives the same outcome with the
    longer file on either side. *)
Theorem X7_comment_line_is_ignored :
  forall E path path' content body self,
  fs E path = Some content ->
  fs E path' = Some (Shape.comment_line body ++ content) ->
  Shape.no_newline body = true ->
  _identify_format E path = Py.Return self ->
  exists self',
    _identify_format E path' = Py.Return self' /\
    dialect self' = dialect self /\
    n_header_lines self' = S (n_header_lines self) /\
    (forall other, compare E self' other = compare E self other) /\
    (forall other, compare E other self' = compare E other self).
Proof.
  intros E path path' content body self Hfs Hfs' Hb Hr.
  pose proof (identify_format_cases E path content Hfs) as H.
  destruct (hash_rows (readlines content) 0) as [n pos] eqn:Eh.
  destruct H as (self0 & Hr0 & Hp & _).
  rewrite Hr in Hr0. injection Hr0 as <-.
  exists {| fpath := path'; dialect := dialect self;
            n_header_lines := S (n_header_lines self) |}.
  assert (Hskip : forall k,
             skip_lines (S k) (readlines (Shape.comment_line body ++ content))
             = skip_lines k (readlines content)).
  { intros k. now rewrite readlines_comment_line. }
  split; [|split; [reflexivity|split; [reflexivity|split]]].
  - unfold _identify_format, open in *. rewrite Hfs in Hr. rewrite Hfs'.
    cbn [Py.bind] in *. rewrite readlines_comment_line by exact Hb.
    cbn [hash_rows]. change (Py.startswith (Shape.comment_line body) "#") with true.
    cbn iota. rewrite hash_rows_succ, Eh. cbn [fst snd]. rewrite Eh in Hr.
    destruct (_ <=? 1)%nat; [now injection Hr as <-|].
    destruct (sniff E (read_sample pos) delimiters); [|now injection Hr as <-].
    destruct (has_header E (read_sample pos)) as [[|]|]; now injection Hr as <-.
  - intros other. unfold compare, open.
    cbn [fpath n_header_lines dialect]. rewrite Hfs', Hp, Hfs. cbn [Py.bind].
    destruct (fs E (fpath other)); cbn [Py.bind]; [|reflexivity].
    now rewrite Hskip.
  - intros other. unfold compare, open.
    cbn [fpath n_header_lines dialect]. rewrite Hfs', Hp, Hfs.
    destruct (fs E (fpath other)); cbn [Py.bind]; [|reflexivity].
    destruct (skip_lines _ _); cbn [Py.bind]; [|reflexivity].
    now rewrite Hskip.
Qed.

Lemma X7_comment_line_is_ignored_witness :
  exists self',
    _identify_format
      (Demo.env [("old.csv", Demo.line "1,2" ++ Demo.line "3,4");
                 ("new.csv", Shape.comment_line " units: m, s"
                             ++ Demo.line "1,2" ++ Demo.line "3,4")])
      "new.csv" = Py.Return self' /\
    n_header_lines self' = 1%nat.
Proof.
  destruct (X7_comment_line_is_ignored
              (Demo.env [("old.csv", Demo.line "1,2" ++ Demo.line "3,4");
                         ("new.csv", Shape.comment_line " units: m, s"
                                     ++ Demo.line "1,2" ++ Demo.line "3,4")])
              "old.csv" "new.csv" _ " units: m, s" _ eq_refl eq_refl eq_refl eq_refl)
    as (self' & Hr & _ & Hn & _).
  exists self'. split; [exact Hr | exact Hn].
Defined.

(* ================================================================== *)
(** ** What a cell is compared by *)
(* ================================================================== *)

Lemma lstrip_all_space pad :
  Shape.all_space pad = true -> Py.lstrip pad = EmptyString.
Proof.
  induction pad as [|c pad IH]; cbn [Shape.all_space Py.lstrip];
    [reflexivity|].
  intros [-> Hp]%andb_true_iff. now apply IH.
Qed.

Lemma rstrip_all_space pad :
  Shape.all_space pad = true -> Py.rstrip pad = EmptyString.
Proof.
  induction pad as [|c pad IH]; cbn [Shape.all_space Py.rstrip];
    [reflexivity|].
  intros [-> Hp]%andb_true_iff. now rewrite IH.
Qed.

Lemma lstrip_pad pad s :
  Shape.all_space pad = true -> Py.lstrip (pad ++ s) = Py.lstrip s.
Proof.
  induction pad as [|c pad IH]; cbn [Shape.all_space Py.lstrip append];
    [reflexivity|].
  intros [-> Hp]%andb_true_iff. now apply IH.
Qed.

Lemma rstrip_pad pad s :
  Shape.all_space pad = true -> Py.rstrip (s ++ pad) = Py.rstrip s.
Proof.
  intros Hp. induction s as [|c s IH]; cbn [append].
  - now apply rstrip_all_space.
  - cbn [Py.rstrip]. now rewrite IH.
Qed.

Lemma strip_pad pad pad' s :
  Shape.all_space pad = true -> Shape.all_space pad' = true ->
  Py.strip (pad ++ s ++ pad') = Py.strip s.
Proof.
  intros Hp Hp'. unfold Py.strip. rewrite lstrip_pad by exact Hp.
  induction s as [|c s IH]; cbn [append].
  - now rewrite lstrip_all_space.
  - cbn [Py.lstrip]. destruct (Py.isspace c); [exact IH|].
    change (String c (s ++ pad')) with (String c s ++ pad').
    now apply rstrip_pad.
Qed.

(** The cell loop reads a cell through [strip] only. *)
Lemma compare_cell_strip a s s' r r' :
  Py.strip s = Py.strip s' -> Py.strip r = Py.strip r' ->
  compare_cell a s r = compare_cell a s' r'.
Proof.
  intros Hs Hr.
  assert (Es : Py.parse_float s = Py.parse_float s')
    by (unfold Py.parse_float; now rewrite Hs).
  assert (Er : Py.parse_float r = Py.parse_float r')
    by (unfold Py.parse_float; now rewrite Hr).
  unfold compare_cell, parse_cell. rewrite Es, Er.
  destruct (Py.parse_float s'), (Py.parse_float r'); try reflexivity.
  now rewrite Hs, Hr.
Qed.

(** X8. Whitespace around a cell is ignored, in a number as in a text, on
    the candidate side as on the reference side: the loop body does to a
    padded cell what it does to the cell. *)
Theorem X8_cell_padding_ignored : forall a pad pad' s s_ref,
  Shape.all_space pad = true -> Shape.all_space pad' = true ->
  compare_cell a (pad ++ s ++ pad') s_ref = compare_cell a s s_ref /\
  compare_cell a s_ref (pad ++ s ++ pad') = compare_cell a s_ref s.
Proof.
  intros a pad pad' s s_ref Hp Hp'.
  split; apply compare_cell_strip; auto using strip_pad.
Qed.

Lemma X8_cell_padding_ignored_witness :
  compare_cell acc0 ("  " ++ "2.5" ++ String "009" EmptyString) "2"
  = compare_cell acc0 "2.5" "2" /\
  compare_cell acc0 "ok" (" " ++ "ok" ++ "  ") = compare_cell acc0 "ok" "ok".
Proof.
  split.
  - exact (proj1 (X8_cell_padding_ignored acc0 "  " (String "009" EmptyString)
                    "2.5" "2" eq_refl eq_refl)).
  - exact (proj2 (X8_cell_padding_ignored acc0 " " "  " "ok" "ok"
                    eq_refl eq_refl)).
Defined.

(* ================================================================== *)
(** ** Candidate and reference exchanged *)
(* ================================================================== *)

Lemma cell_compatible_sym s s_ref :
  Shape.cell_compatible s s_ref = Shape.cell_compatible s_ref s.
Proof.
  unfold Shape.cell_compatible.
  destruct (Py.parse_float s), (Py.parse_float s_ref); try reflexivity.
  apply String.eqb_sym.
Qed.

Lemma forallb_combine_sym (p : string -> string -> bool) :
  (forall x y, p x y = p y x) ->
  forall row row_ref,
    forallb (fun c => p (fst c) (snd c)) (combine row row_ref)
    = forallb (fun c => p (fst c) (snd c)) (combine row_ref row).
Proof.
  intros Hp. induction row as [|s row IH]; intros [|s_ref row_ref];
    try reflexivity.
  cbn [combine forallb fst snd]. now rewrite Hp, IH.
Qed.

Lemma compatible_sym rdr : forall rdr_ref,
  Shape.compatible rdr rdr_ref = Shape.compatible rdr_ref rdr.
Proof.
  induction rdr as [|[row|] rdr IH]; intros [|[row_ref|] rdr_ref];
    try reflexivity.
  cbn [Shape.compatible]. unfold Shape.row_compatible.
  rewrite (Nat.eqb_sym (List.length row)).
  rewrite (forallb_combine_sym _ cell_compatible_sym row row_ref).
  now rewrite IH.
Qed.

Lemma cell_deviations_length_sym row : forall row_ref,
  List.length (Spec.cell_deviations (combine row row_ref))
  = List.length (Spec.cell_deviations (combine row_ref row)).
Proof.
  induction row as [|s row IH]; intros [|s_ref row_ref]; try reflexivity.
  cbn [combine Spec.cell_deviations].
  destruct (Py.parse_float s), (Py.parse_float s_ref); cbn [List.length];
    now rewrite IH.
Qed.

Lemma deviations_length_sym rdr : forall rdr_ref,
  List.length (Spec.deviations rdr rdr_ref)
  = List.length (Spec.deviations rdr_ref rdr).
Proof.
  induction rdr as [|[row|] rdr IH]; intros [|[row_ref|] rdr_ref];
    try reflexivity.
  cbn [Spec.deviations]. rewrite !length_app.
  now rewrite cell_deviations_length_sym, IH.
Qed.

(** X9. Whether a comparison is graded does not depend on which of the
    two files is the reference: when the walk of a candidate against a
    reference completes, so does the walk of the reference against the
    candidate, over as many numeric cells. *)
Theorem X9_graded_both_ways : forall rdr rdr_ref a a1,
  walk rdr rdr_ref a = Next a1 ->
  exists a2, walk rdr_ref rdr a = Next a2 /\ n_cells a2 = n_cells a1.
Proof.
  intros rdr rdr_ref a a1. rewrite !walk_shape, (compatible_sym rdr_ref rdr).
  destruct (Shape.compatible rdr rdr_ref); [|discriminate].
  intros [= <-]. eexists; split; [reflexivity|].
  now rewrite !n_cells_fold, deviations_length_sym.
Qed.

Lemma X9_graded_both_ways_witness :
  exists a2,
    walk (Demo.rows [["1"; "x"]; ["0"; "y"]]) (Demo.rows [["2"; "x"]; ["4"; "y"]])
         acc0 = Next a2 /\
    n_cells a2 = 2.
Proof.
  destruct (X9_graded_both_ways
              (Demo.rows [["2"; "x"]; ["4"; "y"]])
              (Demo.rows [["1"; "x"]; ["0"; "y"]]) acc0 _ eq_refl)
    as (a2 & Hw & Hn).
  exists a2. split; [exact Hw | exact Hn].
Defined.

(* ================================================================== *)
(** ** Files that hold the same values *)
(* ================================================================== *)

Lemma deviation_same x y :
  Py.is_finite x = true -> Py.feqb x y = true -> Spec.deviation x y = Py.fzero.
Proof.
  intros Hx Hxy.
  destruct x as [sx|sx| |sx mx ex]; try discriminate.
  - destruct y as [sy|sy| |sy my ey]; try reflexivity;
      try discriminate; now destruct sx, sy.
  - destruct y as [sy|sy| |sy my ey]; try (now destruct sx);
      try (now destruct sx, sy).
    assert (S754_finite sy my ey = S754_finite sx mx ex) as ->.
    { unfold Py.feqb, SFeqb, SFcompare in Hxy.
      destruct sx, sy; try discriminate;
        destruct (Z.compare_spec ex ey); try discriminate;
        change (Pos.compare_cont Eq mx my) with (Pos.compare mx my) in Hxy;
        destruct (Pos.compare_spec mx my); try discriminate;
        now subst. }
    now apply deviation_self.
Qed.

Lemma cell_same_compatible s s_ref :
  Shape.cell_same s s_ref = true -> Shape.cell_compatible s s_ref = true.
Proof.
  unfold Shape.cell_same, Shape.cell_compatible.
  now destruct (Py.parse_float s), (Py.parse_float s_ref).
Qed.

Lemma cells_same cells :
  forallb (fun p => Shape.cell_same (fst p) (snd p)) cells = true ->
  forallb (fun p => Shape.cell_compatible (fst p) (snd p)) cells = true /\
  Forall (eq Py.fzero) (Spec.cell_deviations cells).
Proof.
  induction cells as [|[s s_ref] cells IH];
    cbn [forallb fst snd Spec.cell_deviations]; [now split|].
  intros [Hc Hcells]%andb_true_iff. destruct (IH Hcells) as [IH1 IH2].
  rewrite (cell_same_compatible _ _ Hc), IH1. split; [reflexivity|].
  unfold Shape.cell_same in Hc.
  destruct (Py.parse_float s) as [x|], (Py.parse_float s_ref) as [y|];
    try discriminate; [|exact IH2].
  apply andb_true_iff in Hc as [Hx Hxy].
  constructor; [now rewrite deviation_same | exact IH2].
Qed.

Lemma same_compatible rdr : forall rdr_ref,
  Shape.same rdr rdr_ref = true ->
  Shape.compatible rdr rdr_ref = true /\
  Forall (eq Py.fzero) (Spec.deviations rdr rdr_ref).
Proof.
  induction rdr as [|[row|] rdr IH]; intros [|[row_ref|] rdr_ref];
    cbn [Shape.same Shape.compatible Spec.deviations]; try discriminate;
    [now split|].
  unfold Shape.row_same, Shape.row_compatible.
  intros [[-> Hrow]%andb_true_iff Hrdr]%andb_true_iff.
  destruct (cells_same _ Hrow) as [-> Hz], (IH _ Hrdr) as [-> Hz'].
  split; [reflexivity | now apply Forall_app].
Qed.

(** X10. Two readers that yield the same values, fewer than 2^53 of them
    numbers, compare to exactly (0.0, 0.0): as many rows of as many cells,
    each pair the same finite number in any spelling or the same text up
    to surrounding whitespace. *)
Theorem X10_same_values_compare_to_zero : forall rdr rdr_ref,
  Shape.same rdr rdr_ref = true ->
  Spec.exact_count (Spec.deviations rdr rdr_ref) = true ->
  compare_rows rdr rdr_ref = Py.Return (Py.fzero, Py.fzero).
Proof.
  intros rdr rdr_ref Hs Hc. destruct (same_compatible _ _ Hs) as [Hcomp Hz].
  pose proof (walk_shape rdr rdr_ref acc0) as Hw. rewrite Hcomp in Hw.
  rewrite (compare_rows_completed _ _ _ Hw Hc).
  destruct (fold_zero _ acc0 Hz eq_refl eq_refl) as [-> _].
  now rewrite mean_zero.
Qed.

Lemma X10_same_values_compare_to_zero_witness :
  compare_rows (Demo.rows [["run"; "1.50"; "-0"]; ["end "; "1e3"; "7"]])
               (Demo.rows [[" run"; "1.5"; "0.0"]; ["end"; "1000"; "7.0"]])
  = Py.Return (Py.fzero, Py.fzero).
Proof.
  apply X10_same_values_compare_to_zero; reflexivity.
Defined.

(* ================================================================== *)
(** ** A deviation that is not a number *)
(* ================================================================== *)

Lemma fadd_nan_l x : Py.fadd Py.fnan x = Py.fnan.
Proof. reflexivity. Qed.

Lemma fadd_nan_r x : Py.fadd x Py.fnan = Py.fnan.
Proof. now destruct x. Qed.

Lemma fold_fadd_nan ds : fold_left Py.fadd ds Py.fnan = Py.fnan.
Proof. induction ds as [|d ds IH]; cbn [fold_left]; [reflexivity|exact IH]. Qed.

Lemma running_sum_nan ds : forall s,
  existsb Py.is_nan ds = true -> fold_left Py.fadd ds s = Py.fnan.
Proof.
  induction ds as [|d ds IH]; intros s; cbn [existsb fold_left];
    [discriminate|].
  destruct d; cbn [Py.is_nan orb]; try (now apply IH).
  intros _. rewrite fadd_nan_r. apply fold_fadd_nan.
Qed.

Lemma finish_nan a avg mx :
  avg_delta a = Py.fnan -> finish a = Py.Return (mx, avg) -> avg = Py.fnan.
Proof.
  intros Ha. unfold finish. rewrite Ha.
  destruct (0 <? n_cells a); [|now intros [= _ <-]].
  destruct (Py.float_of_int (n_cells a)) as [n|]; cbn [Py.bind];
    [|discriminate].
  unfold Py.truediv. destruct (Py.feqb n Py.fzero); [discriminate|].
  cbn [Py.bind]. intros [= _ <-]. now destruct n.
Qed.

(** X11. One deviation that is not a number makes the reported mean not
    a number: when the two readers are graded and some numeric pair
    deviates by NaN, every report that [compare] returns has NaN as its
    mean, and it returns one whenever there are fewer than 2^53 numeric
    pairs. *)
Theorem X11_nan_deviation_poisons_mean : forall rdr rdr_ref,
  Shape.compatible rdr rdr_ref = true ->
  existsb Py.is_nan (Spec.deviations rdr rdr_ref) = true ->
  (forall mx avg, compare_rows rdr rdr_ref = Py.Return (mx, avg) ->
                  avg = Py.fnan) /\
  (Spec.exact_count (Spec.deviations rdr rdr_ref) = true ->
   exists mx, compare_rows rdr rdr_ref = Py.Return (mx, Py.fnan)).
Proof.
  intros rdr rdr_ref Hc Hn.
  pose proof (walk_shape rdr rdr_ref acc0) as Hw. rewrite Hc in Hw.
  assert (Hs : avg_delta (fold_left accumulate (Spec.deviations rdr rdr_ref) acc0)
               = Py.fnan)
    by (rewrite avg_delta_fold; now apply running_sum_nan).
  assert (H1 : forall mx avg, compare_rows rdr rdr_ref = Py.Return (mx, avg) ->
                              avg = Py.fnan).
  { intros mx avg. unfold compare_rows. rewrite Hw. now apply finish_nan. }
  split; [exact H1|].
  intros He. rewrite (compare_rows_completed _ _ _ Hw He) in *.
  eexists. f_equal. f_equal. exact (H1 _ _ eq_refl).
Qed.

Lemma X11_nan_deviation_poisons_mean_witness :
  exists mx,
    compare_rows (Demo.rows [["1"; "nan"]; ["3"; "4"]])
                 (Demo.rows [["1"; "2"]; ["3"; "4"]])
    = Py.Return (mx, Py.fnan).
Proof.
  exact (proj2 (X11_nan_deviation_poisons_mean
                  (Demo.rows [["1"; "nan"]; ["3"; "4"]])
                  (Demo.rows [["1"; "2"]; ["3"; "4"]]) eq_refl eq_refl)
               eq_refl).
Defined.

(* ================================================================== *)
(** ** When [compare] returns *)
(* ================================================================== *)

(** X12. With both files open behind their header lines and fewer than
    2^53 numeric pairs, [compare] raises nothing: it returns a report,
    the failure report when the readers differ in shape and the maximum
    with the mean otherwise. *)
Theorem X12_compare_returns : forall E self ref rdr rdr_ref,
  Spec.data_rows E self = Py.Return rdr ->
  Spec.data_rows E ref = Py.Return rdr_ref ->
  Spec.exact_count (Spec.deviations rdr rdr_ref) = true ->
  compare E self ref
  = Py.Return
      (if Shape.compatible rdr rdr_ref
       then (max_delta (fold_left accumulate (Spec.deviations rdr rdr_ref) acc0),
             Spec.mean (Spec.deviations rdr rdr_ref))
       else FAILURE).
Proof.
  intros E self ref rdr rdr_ref Hd Hr Hc.
  rewrite (compare_data_rows E self ref rdr rdr_ref Hd Hr).
  pose proof (walk_shape rdr rdr_ref acc0) as Hw.
  destruct (Shape.compatible rdr rdr_ref).
  - exact (compare_rows_completed _ _ _ Hw Hc).
  - unfold compare_rows. now rewrite Hw.
Qed.

Lemma X12_compare_returns_witness :
  compare (Demo.env [("a.csv", Demo.line "1,2" ++ Demo.line "3,4");
                     ("b.csv", Demo.line "1,2")])
          {| fpath := "a.csv"; dialect := Sniffed Demo.comma;
             n_header_lines := 0 |}
          {| fpath := "b.csv"; dialect := Sniffed Demo.comma;
             n_header_lines := 0 |}
  = Py.Return FAILURE.
Proof.
  exact (X12_compare_returns
           (Demo.env [("a.csv", Demo.line "1,2" ++ Demo.line "3,4");
                      ("b.csv", Demo.line "1,2")])
           {| fpath := "a.csv"; dialect := Sniffed Demo.comma;
              n_header_lines := 0 |}
           {| fpath := "b.csv"; dialect := Sniffed Demo.comma;
              n_header_lines := 0 |}
           _ _ eq_refl eq_refl eq_refl).
Defined.

(* ================================================================== *)
(** ** What the format detection reads *)
(* ================================================================== *)

Lemma append_nil_r s : s ++ EmptyString = s.
Proof. induction s as [|c s IH]; cbn [append]; [reflexivity|now rewrite IH]. Qed.

Lemma append_assoc s t u : (s ++ t) ++ u = s ++ t ++ u.
Proof. induction s as [|c s IH]; cbn [append]; [reflexivity|now rewrite IH]. Qed.

Lemma concat_cons l ls :
  String.concat EmptyString (l :: ls) = l ++ String.concat EmptyString ls.
Proof.
  destruct ls as [|l' ls]; cbn [String.concat]; [now rewrite append_nil_r|].
  reflexivity.
Qed.

(** The lines of a text, one after the other, are the text. *)
Lemma concat_readlines s : String.concat EmptyString (readlines s) = s.
Proof.
  induction s as [|c s IH]; [reflexivity|]. cbn [readlines].
  destruct (Ascii.eqb c "010").
  - rewrite concat_cons, IH. reflexivity.
  - destruct (readlines s) as [|l ls].
    + cbn in IH. now subst s.
    + rewrite concat_cons in *. cbn [append]. now rewrite IH.
Qed.

Lemma readlines_head data :
  Py.startswith data "#" = false ->
  match readlines data with
  | [] => True
  | l :: _ => Py.startswith l "#" = false
  end.
Proof.
  destruct data as [|c data]; [exact (fun _ => I)|].
  cbn [Py.startswith readlines]. intros Hc.
  destruct (Ascii.eqb c "010"); [exact Hc|].
  now destruct (readlines data).
Qed.

Lemma readlines_comment_block bodies data :
  forallb Shape.no_newline bodies = true ->
  readlines (Shape.comment_block bodies ++ data)
  = (map Shape.comment_line bodies ++ readlines data)%list.
Proof.
  induction bodies as [|b bodies IH]; cbn [forallb Shape.comment_block fold_right];
    [reflexivity|].
  intros [Hb Hbs]%andb_true_iff.
  change (fold_right _ EmptyString bodies) with (Shape.comment_block bodies).
  rewrite append_assoc, readlines_comment_line by exact Hb.
  cbn [map app]. now rewrite IH.
Qed.

Lemma hash_rows_comment_block bodies lines : forall n,
  hash_rows (map Shape.comment_line bodies ++ lines)%list n
  = hash_rows lines (List.length bodies + n).
Proof.
  induction bodies as [|b bodies IH]; intros n; [reflexivity|].
  cbn [map app hash_rows List.length].
  change (Py.startswith (Shape.comment_line b) "#") with true. cbn iota.
  rewrite IH. f_equal. lia.
Qed.

Lemma hash_rows_stop lines n :
  match lines with
  | [] => True
  | l :: _ => Py.startswith l "#" = false
  end ->
  hash_rows lines n = (n, lines).
Proof. destruct lines as [|l lines]; cbn [hash_rows]; [reflexivity|]. now intros ->. Qed.

(** The position and the sample of [_identify_format] on comment lines
    followed by data. *)
Lemma sample_of_comment_block bodies data :
  forallb Shape.no_newline bodies = true ->
  Py.startswith data "#" = false ->
  hash_rows (readlines (Shape.comment_block bodies ++ data)) 0
  = (List.length bodies, readlines data) /\
  read_sample (readlines data) = substring 0 1024 data.
Proof.
  intros Hb Hd. split.
  - rewrite readlines_comment_block, hash_rows_comment_block by exact Hb.
    rewrite Nat.add_0_r. apply hash_rows_stop. now apply readlines_head.
  - unfold read_sample. now rewrite concat_readlines.
Qed.

(** X13. The format detection reads the number of comment lines at the
    head of a file and the 1024 characters that follow them, and nothing
    else: two files that agree in the latter get the same dialect and the
    same verdict on a header line, whatever their comments say and
    whatever follows in the data. *)
Theorem X13_detection_reads_a_sample :
  forall E path path' bodies bodies' data data' self self',
  fs E path = Some (Shape.comment_block bodies ++ data) ->
  fs E path' = Some (Shape.comment_block bodies' ++ data') ->
  forallb Shape.no_newline bodies = true ->
  forallb Shape.no_newline bodies' = true ->
  Py.startswith data "#" = false ->
  Py.startswith data' "#" = false ->
  substring 0 1024 data = substring 0 1024 data' ->
  _identify_format E path = Py.Return self ->
  _identify_format E path' = Py.Return self' ->
  dialect self' = dialect self /\
  (n_header_lines self = List.length bodies /\
   n_header_lines self' = List.length bodies' \/
   n_header_lines self = S (List.length bodies) /\
   n_header_lines self' = S (List.length bodies')).
Proof.
  intros E path path' bodies bodies' data data' self self'
         Hfs Hfs' Hb Hb' Hd Hd' Hsample.
  destruct (sample_of_comment_block bodies data Hb Hd) as [Hh Hs].
  destruct (sample_of_comment_block bodies' data' Hb' Hd') as [Hh' Hs'].
  unfold _identify_format, open. rewrite Hfs, Hfs'. cbn [Py.bind].
  rewrite Hh, Hh', Hs, Hs', <- Hsample.
  destruct (_ <=? 1)%nat; [intros [= <-] [= <-]; cbn; auto|].
  destruct (sniff E _ delimiters); [|intros [= <-] [= <-]; cbn; auto].
  destruct (has_header E _) as [[|]|]; intros [= <-] [= <-]; cbn; auto.
Qed.

Lemma X13_detection_reads_a_sample_witness :
  exists self self',
    _identify_format
      (Demo.env [("old.csv", Demo.line "1,2" ++ Demo.line "3,4");
                 ("new.csv", Demo.line "# run 7" ++ Demo.line "#"
                             ++ Demo.line "1,2" ++ Demo.line "3,4")])
      "old.csv" = Py.Return self /\
    _identify_format
      (Demo.env [("old.csv", Demo.line "1,2" ++ Demo.line "3,4");
                 ("new.csv", Demo.line "# run 7" ++ Demo.line "#"
                             ++ Demo.line "1,2" ++ Demo.line "3,4")])
      "new.csv" = Py.Return self' /\
    dialect self' = dialect self.
Proof.
  eexists. eexists. split; [reflexivity|]. split; [reflexivity|].
  exact (proj1 (X13_detection_reads_a_sample
                  (Demo.env [("old.csv", Demo.line "1,2" ++ Demo.line "3,4");
                             ("new.csv", Demo.line "# run 7" ++ Demo.line "#"
                                         ++ Demo.line "1,2" ++ Demo.line "3,4")])
                  "old.csv" "new.csv" [] [" run 7"; EmptyString]
                  (Demo.line "1,2" ++ Demo.line "3,4")
                  (Demo.line "1,2" ++ Demo.line "3,4") _ _
                  eq_refl eq_refl eq_refl eq_refl eq_refl eq_refl eq_refl
                  eq_refl eq_refl)).
Defined.

(* ================================================================== *)
(** ** From two paths to a report *)
(* ================================================================== *)

Lemma init_returns E path content :
  fs E path = Some content ->
  exists self, __init__ E path = Py.Return self /\ fpath self = path.
Proof.
  intros Hfs. pose proof (identify_format_cases E path content Hfs) as H.
  destruct (hash_rows (readlines content) 0) as [n pos].
  destruct H as (self & Hr & Hp & _). now exists self.
Qed.

(** X14. Two results constructed from files that open can be compared:
    both constructors return, each result keeps its path, and [compare]
    on them raises neither [IOError] nor [StopIteration]; it returns a
    report, or raises [OverflowError] on a count of numeric pairs beyond
    the floats. *)
Theorem X14_construct_then_compare : forall E path path_ref content content_ref,
  fs E path = Some content ->
  fs E path_ref = Some content_ref ->
  exists self ref,
    __init__ E path = Py.Return self /\ fpath self = path /\
    __init__ E path_ref = Py.Return ref /\ fpath ref = path_ref /\
    ((exists r, compare E self ref = Py.Return r) \/
     compare E self ref = Py.Raise Py.OverflowError).
Proof.
  intros E path path_ref content content_ref Hfs Hfs_ref.
  destruct (init_returns E path content Hfs) as (self & Hi & Hp).
  destruct (init_returns E path_ref content_ref Hfs_ref) as (ref & Hi_ref & Hp_ref).
  exists self, ref. repeat (split; [assumption|]).
  destruct (data_rows_defined E path self Hi) as (rdr & Hd).
  destruct (data_rows_defined E path_ref ref Hi_ref) as (rdr_ref & Hd_ref).
  rewrite (compare_data_rows E self ref rdr rdr_ref Hd Hd_ref).
  apply compare_rows_outcome.
Qed.

Lemma X14_construct_then_compare_witness :
  exists self ref,
    __init__ (Demo.env [("out.csv", Demo.line "t,x" ++ Demo.line "0,1.5");
                        ("ref.csv", Demo.line "# reference"
                                    ++ Demo.line "t,x" ++ Demo.line "0,1.0")])
             "out.csv" = Py.Return self /\
    __init__ (Demo.env [("out.csv", Demo.line "t,x" ++ Demo.line "0,1.5");
                        ("ref.csv", Demo.line "# reference"
                                    ++ Demo.line "t,x" ++ Demo.line "0,1.0")])
             "ref.csv" = Py.Return ref /\
    exists r,
      compare (Demo.env [("out.csv", Demo.line "t,x" ++ Demo.line "0,1.5");
                         ("ref.csv", Demo.line "# reference"
                                     ++ Demo.line "t,x" ++ Demo.line "0,1.0")])
              self ref = Py.Return r.
Proof.
  destruct (X14_construct_then_compare
              (Demo.env [("out.csv", Demo.line "t,x" ++ Demo.line "0,1.5");
                         ("ref.csv", Demo.line "# reference"
                                     ++ Demo.line "t,x" ++ Demo.line "0,1.0")])
              "out.csv" "ref.csv" _ _ eq_refl eq_refl)
    as (self & ref & Hi & _ & Hi_ref & _ & H).
  exists self, ref. split; [exact Hi|]. split; [exact Hi_ref|].
  destruct H as [H|H]; [exact H|].
  exfalso. vm_compute in Hi, Hi_ref.
  injection Hi as <-. injection Hi_ref as <-. vm_compute in H. discriminate.
Defined.
